(** * wallet_commands.py: a shallow embedding and its specification

    The script [clawdbot/wallet_commands.py] parses [sys.argv], formats the
    arguments of one canister method, shells out to [dfx] once and prints what
    came back.  This file embeds it as Rocq functions and proves the
    properties its specification lists.

    Modelling conventions.

    - A Python [str] is a Rocq [string] whose characters are the code points
      0..255; strings with larger code points are outside the model.
    - A Python [float] is an IEEE-754 binary64 number, given by the standard
      library's [spec_float] with [prec = 53] and [emax = 1024]; a Python
      [int] is a [Z].
    - Effects are recorded as a chronological list of events: one [EPrint]
      per call of [print] (the text, without the newline that [print] adds)
      and one [ERun] per call of [subprocess.run].  What the child process
      does is a parameter of the development ([subprocess_run]).
    - A computation ends by returning a value, by [sys.exit], or with an
      exception nobody catches (the script has no [try]). *)

From Stdlib Require Import ZArith NArith List String Ascii Bool Lia.
From Stdlib Require Import DecimalString.
From Stdlib Require Import SpecFloat.
Import ListNotations.

Local Open Scope string_scope.
Local Open Scope Z_scope.

(** ** Python strings *)

Module PyStr.

Definition code (c : ascii) : N := N_of_ascii c.

Definition in_range (lo hi : N) (c : ascii) : bool :=
  (N.leb lo (code c) && N.leb (code c) hi)%bool.

(** The upper-case letters among the code points 0..255: A-Z and the
    Latin-1 capitals 0xC0..0xDE without the multiplication sign 0xD7.
    Each one's lower-case form is 32 code points further. *)
Definition is_upper (c : ascii) : bool :=
  (in_range 65 90 c
   || (in_range 192 222 c && negb (N.eqb (code c) 215)))%bool.

Definition lower_char (c : ascii) : ascii :=
  if is_upper c then ascii_of_N (code c + 32) else c.

(** [str.lower()] *)
Fixpoint lower (s : string) : string :=
  match s with
  | EmptyString => EmptyString
  | String c r => String (lower_char c) (lower r)
  end.

(** [str.isspace()] on one character: TAB..CR, FS..US, space, NEL, NBSP. *)
Definition is_space (c : ascii) : bool :=
  (in_range 9 13 c || in_range 28 32 c
   || N.eqb (code c) 133 || N.eqb (code c) 160)%bool.

Section Strip.
Variable sp : ascii -> bool.

Fixpoint lstrip_by (s : string) : string :=
  match s with
  | EmptyString => EmptyString
  | String c r => if sp c then lstrip_by r else s
  end.

Fixpoint rstrip_by (s : string) : string :=
  match s with
  | EmptyString => EmptyString
  | String c r =>
      match rstrip_by r with
      | EmptyString => if sp c then EmptyString else String c EmptyString
      | r' => String c r'
      end
  end.

Definition strip_by (s : string) : string := rstrip_by (lstrip_by s).
End Strip.

(** [str.strip()] with no argument *)
Definition strip : string -> string := strip_by is_space.

(** [str(n)] and the [{n}] of an f-string, for an [int] *)
Definition of_int (n : Z) : string := NilZero.string_of_int (Z.to_int n).

(** [sep.join(l)] *)
Fixpoint join (sep : string) (l : list string) : string :=
  match l with
  | [] => EmptyString
  | [x] => x
  | x :: r => x ++ sep ++ join sep r
  end.

(** [x in (a, b, ...)] for strings *)
Definition mem (x : string) (l : list string) : bool :=
  existsb (String.eqb x) l.

End PyStr.

(** ** Python floats *)

Module PyFloat.

Definition prec : Z := 53.
Definition emax : Z := 1024.

Definition mul : spec_float -> spec_float -> spec_float := SFmul prec emax.

(** The binary64 number nearest to [(-1)^neg * m * 10^e] (ties to even),
    which is what [strtod] computes for a decimal numeral. *)
Definition of_decimal (neg : bool) (m e : Z) : spec_float :=
  match m with
  | Zpos _ =>
      let num := m * 10 ^ Z.max e 0 in
      let den := 10 ^ Z.max (- e) 0 in
      SFdiv prec emax (S754_finite neg (Z.to_pos num) 0)
                      (S754_finite false (Z.to_pos den) 0)
  | _ => S754_zero neg
  end.

(** A float literal of the source such as [1e9]: mantissa 1, exponent 9. *)
Definition literal_1e (e : Z) : spec_float := of_decimal false 1 e.

Definition is_digit (c : ascii) : bool := PyStr.in_range 48 57 c.

(** Splits off the longest prefix of decimal digits. *)
Fixpoint span_digits (s : string) : string * string :=
  match s with
  | EmptyString => (EmptyString, EmptyString)
  | String c r =>
      if is_digit c
      then let (d, t) := span_digits r in (String c d, t)
      else (EmptyString, s)
  end.

Fixpoint digits_value (acc : Z) (d : string) : Z :=
  match d with
  | EmptyString => acc
  | String c r => digits_value (10 * acc + (Z.of_N (PyStr.code c) - 48)) r
  end.

(** An underscore is accepted only between two digits; the accepted ones
    are dropped.  [prev] is the character before [s]. *)
Fixpoint drop_underscores (prev : option ascii) (s : string) : option string :=
  let prev_digit := match prev with Some p => is_digit p | None => false end in
  match s with
  | EmptyString =>
      if match prev with Some "_"%char => true | _ => false end
      then None else Some EmptyString
  | String c r =>
      if Ascii.eqb c "_"
      then if prev_digit then drop_underscores (Some c) r else None
      else
        if (match prev with Some "_"%char => true | _ => false end
            && negb (is_digit c))%bool
        then None
        else option_map (String c) (drop_underscores (Some c) r)
  end.

(** The white space [float()] removes around the numeral: TAB..CR and
    space, and the non-ASCII spaces NEL and NBSP. *)
Definition is_float_space (c : ascii) : bool :=
  (PyStr.in_range 9 13 c || N.eqb (PyStr.code c) 32
   || N.eqb (PyStr.code c) 133 || N.eqb (PyStr.code c) 160)%bool.

Definition take_sign (s : string) : bool * string :=
  match s with
  | String "-" r => (true, r)
  | String "+" r => (false, r)
  | _ => (false, s)
  end.

(** [digits [. digits] [e [sign] digits]] with a digit before or after the
    point, up to the end of the string. *)
Definition parse_decimal (neg : bool) (s : string) : option spec_float :=
  let (ip, r1) := span_digits s in
  let (fp, r2) :=
    match r1 with
    | String "." r => span_digits r
    | _ => (EmptyString, r1)
    end in
  if (Nat.eqb (String.length ip + String.length fp) 0)%nat then None
  else
    let m := digits_value 0 (ip ++ fp) in
    let shift := Z.of_nat (String.length fp) in
    match r2 with
    | EmptyString => Some (of_decimal neg m (- shift))
    | String c r =>
        if (Ascii.eqb c "e" || Ascii.eqb c "E")%bool
        then
          let (eneg, r3) := take_sign r in
          match span_digits r3 with
          | (String d ds, EmptyString) =>
              let x := digits_value 0 (String d ds) in
              Some (of_decimal neg m ((if eneg then - x else x) - shift))
          | _ => None
          end
        else None
    end.

(** [inf], [infinity] and [nan], in any case, after the sign. *)
Definition parse_inf_nan (neg : bool) (s : string) : option spec_float :=
  let l := PyStr.lower s in
  if (String.eqb l "inf" || String.eqb l "infinity")%bool
  then Some (S754_infinity neg)
  else if String.eqb l "nan" then Some S754_nan
  else None.

(** [float(s)] for a string; [None] stands for [ValueError].  CPython
    checks the underscores first, then trims the white space and reads a
    decimal numeral or, failing that, an infinity or a NaN.  Its [strtod] is
    correctly rounded; the caps it puts on the number of digits and on the
    exponent lie above 10^9 and are out of reach of a command-line
    argument. *)
Definition of_string (s : string) : option spec_float :=
  match drop_underscores None s with
  | None => None
  | Some s1 =>
      let s2 := PyStr.strip_by is_float_space s1 in
      let (neg, body) := take_sign s2 in
      match parse_decimal neg body with
      | Some f => Some f
      | None => parse_inf_nan neg body
      end
  end.

(** [int(f)]: truncation towards zero; an infinity is an [OverflowError]
    and a NaN a [ValueError]. *)
Inductive int_result : Type :=
| IntOk (n : Z)
| IntOverflow
| IntNaN.

Definition to_int (f : spec_float) : int_result :=
  match f with
  | S754_zero _ => IntOk 0
  | S754_infinity _ => IntOverflow
  | S754_nan => IntNaN
  | S754_finite s m e =>
      let a := if 0 <=? e then Zpos m * 2 ^ e else Zpos m / 2 ^ (- e) in
      IntOk (if s then - a else a)
  end.

End PyFloat.

Arguments PyFloat.of_string : simpl never.
Arguments PyFloat.to_int : simpl never.
Arguments PyFloat.mul : simpl never.
Arguments PyFloat.literal_1e : simpl never.
Arguments PyStr.of_int : simpl never.
Arguments PyStr.strip : simpl never.


(** ** Effects: the trace of a run and how a computation ends *)

Inductive exn : Type :=
| ValueError
| OverflowError
| TimeoutExpired
| OSError.

Inductive event : Type :=
| EPrint (text : string)
| ERun (cmd : list string) (timeout : Z).

Definition trace : Type := list event.

Inductive outcome (A : Type) : Type :=
| Ret (a : A)
| Exit (code : Z)
| Raise (e : exn).

Arguments Ret {A} a.
Arguments Exit {A} code.
Arguments Raise {A} e.

(** A computation: how it ends and what it did on the way. *)
Definition M (A : Type) : Type := (outcome A * trace)%type.

Definition ret {A} (a : A) : M A := (Ret a, []).

Definition bind {A B} (m : M A) (k : A -> M B) : M B :=
  match m with
  | (Ret a, t) => let (o, t') := k a in (o, (t ++ t')%list)
  | (Exit c, t) => (Exit c, t)
  | (Raise e, t) => (Raise e, t)
  end.

Declare Scope py_scope.
Delimit Scope py_scope with py.
Notation "x <- m ;; k" := (bind m (fun x => k))
  (at level 61, m at next level, right associativity) : py_scope.
Notation "m ;; k" := (bind m (fun _ => k))
  (at level 61, right associativity) : py_scope.
Local Open Scope py_scope.

Definition print (s : string) : M unit := (Ret tt, [EPrint s]).
Definition sys_exit {A} (code : Z) : M A := (Exit code, []).
Definition raise {A} (e : exn) : M A := (Raise e, []).

(** [float(s)] and [int(f)] as computations *)
Definition py_float (s : string) : M spec_float :=
  match PyFloat.of_string s with
  | Some f => ret f
  | None => raise ValueError
  end.

Definition py_int (f : spec_float) : M Z :=
  match PyFloat.to_int f with
  | PyFloat.IntOk n => ret n
  | PyFloat.IntOverflow => raise OverflowError
  | PyFloat.IntNaN => raise ValueError
  end.

(** The exit status the shell sees: 0 after the last statement, the argument
    of [sys.exit], and 1 when the interpreter dies of an exception. *)
Definition exit_status {A} (o : outcome A) : Z :=
  match o with
  | Ret _ => 0
  | Exit c => c
  | Raise _ => 1
  end.

Definition abnormal {A} (o : outcome A) : Prop :=
  match o with
  | Raise _ => True
  | _ => False
  end.

(** The command lines handed to [subprocess.run], in order. *)
Fixpoint runs (t : trace) : list (list string) :=
  match t with
  | [] => []
  | ERun cmd _ :: r => cmd :: runs r
  | EPrint _ :: r => runs r
  end.

(** What [subprocess.run(..., capture_output=True, text=True)] comes back
    with: a [CompletedProcess], or an exception. *)
Inductive run_result : Type :=
| Completed (returncode : Z) (stdout stderr : string)
| Failed (e : exn).

Definition nl : string := String (ascii_of_N 10) EmptyString.
Definition dquote : string := String (ascii_of_N 34) EmptyString.
Definition quoted (s : string) : string := dquote ++ s ++ dquote.

(** [list.insert(i, x)] *)
Definition list_insert {A} (i : nat) (x : A) (l : list A) : list A :=
  (firstn i l ++ x :: skipn i l)%list.

(** [d[k]] / [k in d] for a dict literal kept in insertion order *)
Fixpoint dict_get {V} (d : list (string * V)) (k : string) : option V :=
  match d with
  | [] => None
  | (k', v) :: r => if String.eqb k k' then Some v else dict_get r k
  end.

Definition dict_keys {V} (d : list (string * V)) : list string := map fst d.

(** ** Vocabulary of the specification *)

(** The "invocation result" of the specification's data model: the trimmed
    standard output, or the error marker followed by the trimmed standard
    error. *)
Definition result_text (returncode : Z) (stdout stderr : string) : string :=
  if returncode =? 0 then PyStr.strip stdout
  else "ERROR: " ++ PyStr.strip stderr.

(** The chain names the specification lists for [balance] and for [send]. *)
Definition balance_chains : list string :=
  ["sol"; "solana"; "icp"; "xrp"; "sui"; "eth"; "ethereum"].

Definition send_chains : list string :=
  ["sol"; "solana"; "icp"; "btc"; "bitcoin"; "eth"; "ethereum";
   "arb"; "arbitrum"; "xrp"; "sui"; "ton"].

(** The calls of [balance], tabulated: for each chain name the remote
    method, its argument tuple and the symbol shown.  [get_balance] is
    compared with this table below. *)
Definition balance_table : list (string * (string * string * string)) :=
  [ ("sol", ("getMySolanaBalance", "()", "SOL"));
    ("solana", ("getMySolanaBalance", "()", "SOL"));
    ("icp", ("getICPBalance", "()", "ICP"));
    ("xrp", ("getMyXrpBalance", "()", "XRP"));
    ("sui", ("getMySuiBalance", "()", "SUI"));
    ("eth", ("getMyEvmBalance", "(" ++ quoted "ethereum" ++ ")", "ETH"));
    ("ethereum", ("getMyEvmBalance", "(" ++ quoted "ethereum" ++ ")", "ETH")) ].

(** The unit factors of the specification, as powers of ten. *)
Definition unit_exponent (chain : string) : option Z :=
  if PyStr.mem chain ["sol"; "solana"; "sui"; "ton"] then Some 9
  else if PyStr.mem chain ["icp"; "btc"; "bitcoin"] then Some 8
  else if PyStr.mem chain ["eth"; "ethereum"; "arb"; "arbitrum"] then Some 18
  else if String.eqb chain "xrp" then Some 6
  else None.

(** The shapes of the argument tuple of a send: the destination as a plain
    string or as a principal, the amount as a number or as a string, with or
    without a leading network name and a trailing [null].  [send_table]
    lists the method and the shape of each chain; [send_tokens] is compared
    with it below. *)
Definition plain_args (to_address : string) (n : Z) : string :=
  "(" ++ quoted to_address ++ ", " ++ PyStr.of_int n ++ ")".

Definition principal_args (to_address : string) (n : Z) : string :=
  "(principal " ++ quoted to_address ++ ", " ++ PyStr.of_int n ++ ")".

Definition evm_args (network to_address : string) (n : Z) : string :=
  "(" ++ quoted network ++ ", " ++ quoted to_address ++ ", "
  ++ quoted (PyStr.of_int n) ++ ", null)".

Definition xrp_args (to_address : string) (n : Z) : string :=
  "(" ++ quoted to_address ++ ", " ++ quoted (PyStr.of_int n) ++ ", null)".

Definition send_table : list (string * (string * (string -> Z -> string))) :=
  [ ("sol", ("sendSolTransaction", plain_args));
    ("solana", ("sendSolTransaction", plain_args));
    ("icp", ("sendICP", principal_args));
    ("btc", ("sendBitcoin", plain_args));
    ("bitcoin", ("sendBitcoin", plain_args));
    ("eth", ("sendEvmNativeTokenAutonomous", evm_args "ethereum"));
    ("ethereum", ("sendEvmNativeTokenAutonomous", evm_args "ethereum"));
    ("arb", ("sendEvmNativeTokenAutonomous", evm_args "arbitrum"));
    ("arbitrum", ("sendEvmNativeTokenAutonomous", evm_args "arbitrum"));
    ("xrp", ("sendXrpAutonomous", xrp_args));
    ("sui", ("sendSui", plain_args));
    ("ton", ("sendTonSimple", plain_args)) ].

(** [s] occurs in [t]. *)
Definition occurs_in (s t : string) : Prop :=
  exists pre post, t = pre ++ s ++ post.

(** The two traces of the unsupported-chain paths. *)
Definition unsupported_balance (chain : string) : M unit :=
  (Ret tt,
   [EPrint ("Unsupported chain: " ++ chain);
    EPrint ("Supported: " ++ PyStr.join ", " balance_chains)]).

Definition unsupported_send (chain : string) : M unit :=
  (Ret tt,
   [EPrint ("Unsupported chain for send: " ++ chain);
    EPrint "Supported: sol, icp, btc, eth, arb, xrp, sui, ton"]).

(** ** Vocabulary of the further properties *)

(** The commands [main] knows, and how many elements of [sys.argv] each
    one reads (unknown commands read two). *)
Definition commands : list string :=
  ["addresses"; "balance"; "send"; "account"].

Definition required_length (command : string) : nat :=
  if String.eqb command "balance" then 3
  else if String.eqb command "send" then 5
  else 2.

(** The one-line usage messages of [balance] and [send]. *)
Definition usage_lines : list string :=
  ["Usage: wallet_commands.py balance <chain>";
   "Usage: wallet_commands.py send <chain> <amount> <address>"].

(** Every canister method the script names. *)
Definition tool_methods : list string :=
  ["getAllAddresses"; "getMyGatewayAccount";
   "getMySolanaBalance"; "getICPBalance"; "getMyXrpBalance";
   "getMySuiBalance"; "getMyEvmBalance";
   "sendSolTransaction"; "sendICP"; "sendBitcoin";
   "sendEvmNativeTokenAutonomous"; "sendXrpAutonomous"; "sendSui";
   "sendTonSimple"].

(** The long chain names and the short ones they stand for. *)
Definition chain_aliases : list (string * string) :=
  [("solana", "sol"); ("bitcoin", "btc"); ("ethereum", "eth");
   ("arbitrum", "arb")].

(** The chains [send] knows and [balance] does not. *)
Definition send_only_chains : list string :=
  ["btc"; "bitcoin"; "arb"; "arbitrum"; "ton"].

(** How the conversion of the amount of a send can fail: [float()] rejects
    the string, or [int()] rejects the product (infinite or not a
    number). *)
Definition amount_error (chain amount : string) (e : exn) : Prop :=
  (PyFloat.of_string amount = None /\ e = ValueError)
  \/ exists f k,
      PyFloat.of_string amount = Some f /\
      unit_exponent (PyStr.lower chain) = Some k /\
      ((PyFloat.to_int (PyFloat.mul f (PyFloat.literal_1e k))
        = PyFloat.IntOverflow /\ e = OverflowError)
       \/ (PyFloat.to_int (PyFloat.mul f (PyFloat.literal_1e k))
           = PyFloat.IntNaN /\ e = ValueError)).

(** White space only. *)
Fixpoint all_space (s : string) : bool :=
  match s with
  | EmptyString => true
  | String c r => (PyStr.is_space c && all_space r)%bool
  end.

Definition first_char (s : string) : option ascii :=
  match s with
  | EmptyString => None
  | String c _ => Some c
  end.

Fixpoint last_char (s : string) : option ascii :=
  match s with
  | EmptyString => None
  | String c EmptyString => Some c
  | String _ r => last_char r
  end.

(** The string begins or ends with a white-space character. *)
Definition edge_space (s : string) : bool :=
  (match first_char s with Some c => PyStr.is_space c | None => false end
   || match last_char s with Some c => PyStr.is_space c | None => false end)%bool.

(** ** Some child processes to run the script against *)

(** [dfx] succeeds and writes [out]. *)
Definition dfx_answers (out : string) : list string -> Z -> run_result :=
  fun _ _ => Completed 0 out EmptyString.

(** [dfx] fails with status [rc] and writes [err] to its standard error. *)
Definition dfx_rejects (rc : Z) (err : string) : list string -> Z -> run_result :=
  fun _ _ => Completed rc EmptyString err.

(** [dfx] does not finish within the timeout. *)
Definition dfx_hangs : list string -> Z -> run_result :=
  fun _ _ => Failed TimeoutExpired.

(** ** The script *)

Definition CANISTER_ID : string := "urs2a-ziaaa-aaaad-aembq-cai".
Definition NETWORK : string := "ic".

(** The defaults of the parameters [args] and [is_query] of [dfx_call]. *)
Definition default_args : string := "()".
Definition default_is_query : bool := false.

Section Script.

(** The child process: from the command line and the timeout to what
    [subprocess.run] yields. *)
Variable subprocess_run : list string -> Z -> run_result.

Definition dfx_cmd (method args : string) (is_query : bool) : list string :=
  let cmd := ["dfx"; "canister"; "call"; "--network"; NETWORK;
              CANISTER_ID; method; args] in
  if is_query then list_insert 3 "--query" cmd else cmd.

Definition dfx_call (method args : string) (is_query : bool) : M string :=
  let cmd := dfx_cmd method args is_query in
  match subprocess_run cmd 120 with
  | Failed e => (Raise e, [ERun cmd 120])
  | Completed returncode stdout stderr =>
      (Ret tt, [ERun cmd 120]) ;;
      if negb (returncode =? 0)
      then ret ("ERROR: " ++ PyStr.strip stderr)
      else ret (PyStr.strip stdout)
  end.

Definition get_addresses : M string :=
  print ("Fetching addresses on all chains..." ++ nl) ;;
  output <- dfx_call "getAllAddresses" default_args default_is_query ;;
  print ("Your multi-chain wallet addresses:" ++ nl) ;;
  print output ;;
  ret output.

Definition method_map : list (string * (string * spec_float * string)) :=
  [ ("sol", ("getMySolanaBalance", PyFloat.literal_1e 9, "SOL"));
    ("solana", ("getMySolanaBalance", PyFloat.literal_1e 9, "SOL"));
    ("icp", ("getICPBalance", PyFloat.literal_1e 8, "ICP"));
    ("xrp", ("getMyXrpBalance", PyFloat.literal_1e 6, "XRP"));
    ("sui", ("getMySuiBalance", PyFloat.literal_1e 9, "SUI"));
    ("eth", ("getMyEvmBalance", PyFloat.literal_1e 18, "ETH"));
    ("ethereum", ("getMyEvmBalance", PyFloat.literal_1e 18, "ETH")) ].

Definition get_balance (chain : string) : M unit :=
  let chain := PyStr.lower chain in
  match dict_get method_map chain with
  | None =>
      print ("Unsupported chain: " ++ chain) ;;
      print ("Supported: " ++ PyStr.join ", " (dict_keys method_map)) ;;
      ret tt
  | Some (method, divisor, symbol) =>
      output <- (if PyStr.mem chain ["eth"; "ethereum"]
                 then dfx_call method ("(" ++ quoted "ethereum" ++ ")")
                        default_is_query
                 else dfx_call method default_args default_is_query) ;;
      print (symbol ++ " balance: " ++ output)
  end.

Definition send_tokens (chain amount to_address : string) : M unit :=
  let chain := PyStr.lower chain in
  output <-
    (if PyStr.mem chain ["sol"; "solana"] then
       lamports <- (f <- py_float amount ;;
                    py_int (PyFloat.mul f (PyFloat.literal_1e 9))) ;;
       print ("Sending " ++ amount ++ " SOL (" ++ PyStr.of_int lamports
              ++ " lamports) to " ++ to_address ++ "...") ;;
       o <- dfx_call "sendSolTransaction"
              ("(" ++ quoted to_address ++ ", " ++ PyStr.of_int lamports ++ ")")
              default_is_query ;;
       ret (Some o)
     else if String.eqb chain "icp" then
       e8s <- (f <- py_float amount ;;
               py_int (PyFloat.mul f (PyFloat.literal_1e 8))) ;;
       print ("Sending " ++ amount ++ " ICP (" ++ PyStr.of_int e8s
              ++ " e8s) to " ++ to_address ++ "...") ;;
       o <- dfx_call "sendICP"
              ("(principal " ++ quoted to_address ++ ", " ++ PyStr.of_int e8s ++ ")")
              default_is_query ;;
       ret (Some o)
     else if PyStr.mem chain ["btc"; "bitcoin"] then
       satoshis <- (f <- py_float amount ;;
                    py_int (PyFloat.mul f (PyFloat.literal_1e 8))) ;;
       print ("Sending " ++ amount ++ " BTC (" ++ PyStr.of_int satoshis
              ++ " satoshis) to " ++ to_address ++ "...") ;;
       o <- dfx_call "sendBitcoin"
              ("(" ++ quoted to_address ++ ", " ++ PyStr.of_int satoshis ++ ")")
              default_is_query ;;
       ret (Some o)
     else if PyStr.mem chain ["eth"; "ethereum"] then
       wei <- (f <- py_float amount ;;
               py_int (PyFloat.mul f (PyFloat.literal_1e 18))) ;;
       print ("Sending " ++ amount ++ " ETH (" ++ PyStr.of_int wei
              ++ " wei) to " ++ to_address ++ "...") ;;
       o <- dfx_call "sendEvmNativeTokenAutonomous"
              ("(" ++ quoted "ethereum" ++ ", " ++ quoted to_address ++ ", "
               ++ quoted (PyStr.of_int wei) ++ ", null)")
              default_is_query ;;
       ret (Some o)
     else if PyStr.mem chain ["arb"; "arbitrum"] then
       wei <- (f <- py_float amount ;;
               py_int (PyFloat.mul f (PyFloat.literal_1e 18))) ;;
       print ("Sending " ++ amount ++ " ETH on Arbitrum to "
              ++ to_address ++ "...") ;;
       o <- dfx_call "sendEvmNativeTokenAutonomous"
              ("(" ++ quoted "arbitrum" ++ ", " ++ quoted to_address ++ ", "
               ++ quoted (PyStr.of_int wei) ++ ", null)")
              default_is_query ;;
       ret (Some o)
     else if String.eqb chain "xrp" then
       drops <- (f <- py_float amount ;;
                 py_int (PyFloat.mul f (PyFloat.literal_1e 6))) ;;
       print ("Sending " ++ amount ++ " XRP (" ++ PyStr.of_int drops
              ++ " drops) to " ++ to_address ++ "...") ;;
       o <- dfx_call "sendXrpAutonomous"
              ("(" ++ quoted to_address ++ ", " ++ quoted (PyStr.of_int drops)
               ++ ", null)")
              default_is_query ;;
       ret (Some o)
     else if String.eqb chain "sui" then
       mist <- (f <- py_float amount ;;
                py_int (PyFloat.mul f (PyFloat.literal_1e 9))) ;;
       print ("Sending " ++ amount ++ " SUI (" ++ PyStr.of_int mist
              ++ " mist) to " ++ to_address ++ "...") ;;
       o <- dfx_call "sendSui"
              ("(" ++ quoted to_address ++ ", " ++ PyStr.of_int mist ++ ")")
              default_is_query ;;
       ret (Some o)
     else if String.eqb chain "ton" then
       nanotons <- (f <- py_float amount ;;
                    py_int (PyFloat.mul f (PyFloat.literal_1e 9))) ;;
       print ("Sending " ++ amount ++ " TON (" ++ PyStr.of_int nanotons
              ++ " nanotons) to " ++ to_address ++ "...") ;;
       o <- dfx_call "sendTonSimple"
              ("(" ++ quoted to_address ++ ", " ++ PyStr.of_int nanotons ++ ")")
              default_is_query ;;
       ret (Some o)
     else
       print ("Unsupported chain for send: " ++ chain) ;;
       print "Supported: sol, icp, btc, eth, arb, xrp, sui, ton" ;;
       ret None) ;;
  match output with
  | None => ret tt
  | Some output => print (nl ++ "Result: " ++ output)
  end.

Definition get_account : M unit :=
  output <- dfx_call "getMyGatewayAccount" default_args default_is_query ;;
  print ("Billing account status:" ++ nl) ;;
  print output.

Definition usage_text : string :=
  PyStr.join nl
    [ EmptyString;
      "MeneseSDK Wallet Commands";
      "========================";
      EmptyString;
      "  addresses                    Get addresses on all 15 chains (FREE)";
      "  balance <chain>              Check balance (FREE)";
      "  send <chain> <amount> <to>   Send tokens ($0.05)";
      "  account                      Check billing status (FREE)";
      EmptyString;
      "Chains: sol, icp, btc, eth, arb, xrp, sui, ton";
      EmptyString;
      "Examples:";
      "  python3 wallet_commands.py addresses";
      "  python3 wallet_commands.py balance sol";
      "  python3 wallet_commands.py send sol 0.01 5xK2...abc";
      "  python3 wallet_commands.py send icp 1.0 aaaaa-aa";
      EmptyString ].

Definition print_usage : M unit := print usage_text.

(** [sys.argv[i]], used only below a check of [len(sys.argv)] *)
Definition arg (argv : list string) (i : nat) : string :=
  nth i argv EmptyString.

(** The body under [if __name__ == "__main__":]. *)
Definition main (argv : list string) : M unit :=
  (if (List.length argv <? 2)%nat
   then print_usage ;; sys_exit 1
   else ret tt) ;;
  let command := PyStr.lower (arg argv 1) in
  if String.eqb command "addresses" then
    get_addresses ;; ret tt
  else if String.eqb command "balance" then
    (if (List.length argv <? 3)%nat
     then print "Usage: wallet_commands.py balance <chain>" ;; sys_exit 1
     else ret tt) ;;
    get_balance (arg argv 2)
  else if String.eqb command "send" then
    (if (List.length argv <? 5)%nat
     then print "Usage: wallet_commands.py send <chain> <amount> <address>" ;;
          sys_exit 1
     else ret tt) ;;
    send_tokens (arg argv 2) (arg argv 3) (arg argv 4)
  else if String.eqb command "account" then
    get_account
  else
    print ("Unknown command: " ++ command) ;;
    print_usage ;;
    sys_exit 1.

(** What a run of the script owes to each call of the tool it made: the
    call had the 120-second timeout; if the tool completed, the script went
    on and printed the invocation result at the end of a line; if
    [subprocess.run] raised, the script ended with that exception and the
    call is the last thing it did. *)
Definition call_outcome {A} (m : M A) : Prop :=
  forall cmd t, In (ERun cmd t) (snd m) ->
    t = 120 /\
    match subprocess_run cmd t with
    | Completed rc out err =>
        (exists a, fst m = Ret a) /\
        (exists pre, In (EPrint (pre ++ result_text rc out err)) (snd m))
    | Failed e =>
        fst m = Raise e /\
        (exists before, snd m = (before ++ [ERun cmd t])%list)
    end.

(** The four ways a run of the script can go: a usage error; an
    unsupported chain; an amount that does not convert; or some printing,
    one call of the tool and, if the call completes, some more printing that
    ends with the invocation result. *)
Definition run_shape (argv : list string) (m : M unit) : Prop :=
  (exists before text,
      m = (Exit 1, (map EPrint before ++ [EPrint text])%list) /\
      (text = usage_text \/ In text usage_lines))
  \/ (exists line1 line2, m = (Ret tt, [EPrint line1; EPrint line2]))
  \/ (exists e,
         m = (Raise e, []) /\
         PyStr.lower (arg argv 1) = "send" /\
         amount_error (arg argv 2) (arg argv 3) e)
  \/ (exists before method args after pre,
         In method tool_methods /\
         m = match subprocess_run (dfx_cmd method args false) 120 with
             | Completed rc out err =>
                 (Ret tt,
                  (map EPrint before
                   ++ ERun (dfx_cmd method args false) 120
                   :: map EPrint after
                   ++ [EPrint (pre ++ result_text rc out err)])%list)
             | Failed e =>
                 (Raise e,
                  (map EPrint before
                   ++ [ERun (dfx_cmd method args false) 120])%list)
             end).

Arguments dfx_cmd : simpl never.
Arguments dfx_call : simpl never.
Arguments usage_text : simpl never.

(** *** Facts about the string functions *)

Lemma lower_char_idem (c : ascii) :
  PyStr.lower_char (PyStr.lower_char c) = PyStr.lower_char c.
Proof.
  destruct c as [[] [] [] [] [] [] [] []]; reflexivity.
Qed.

Lemma lower_idem (s : string) : PyStr.lower (PyStr.lower s) = PyStr.lower s.
Proof.
  induction s as [|c r IH]; simpl.
  - reflexivity.
  - now rewrite lower_char_idem, IH.
Qed.

Lemma mem_In (x : string) (l : list string) :
  PyStr.mem x l = true <-> In x l.
Proof.
  unfold PyStr.mem. rewrite existsb_exists. split.
  - intros [y [Hy E]]. apply String.eqb_eq in E. now subst.
  - intros H. exists x. split; [exact H | apply String.eqb_refl].
Qed.

Lemma mem_not_In (x : string) (l : list string) :
  PyStr.mem x l = false <-> ~ In x l.
Proof.
  rewrite <- mem_In. destruct (PyStr.mem x l); split; congruence.
Qed.

(** The float model at work: the double nearest to 0.1, an amount whose
    product falls just below an integer, and strings [float()] rejects. *)
Example float_of_one_tenth :
  PyFloat.of_string "0.1" = Some (S754_finite false 7205759403792794 (-56)).
Proof. vm_compute. reflexivity. Qed.

Example truncation_of_inexact_product :
  option_map (fun f => PyFloat.to_int (PyFloat.mul f (PyFloat.literal_1e 8)))
    (PyFloat.of_string "0.57") = Some (PyFloat.IntOk 56999999).
Proof. vm_compute. reflexivity. Qed.

Example float_accepts_and_rejects :
  map PyFloat.of_string [" 1_000.5 "; "1e3"; "-Infinity"; "1e"; "1_"; "0x10"; "abc"] =
  [ Some (S754_finite false 8800491068719104 (-43));
    Some (S754_finite false 8796093022208000 (-43));
    Some (S754_infinity true); None; None; None; None ].
Proof. vm_compute. reflexivity. Qed.

(** Case analysis on a chain name against a literal. *)
Ltac case_name c s :=
  let E := fresh "E" in
  destruct (String.eqb c s) eqn:E;
  [ apply String.eqb_eq in E; try subst c | ].

(** *** The script, operation by operation *)

Lemma dfx_call_eq (method args : string) (is_query : bool) :
  dfx_call method args is_query =
  let cmd := dfx_cmd method args is_query in
  match subprocess_run cmd 120 with
  | Completed rc out err => (Ret (result_text rc out err), [ERun cmd 120])
  | Failed e => (Raise e, [ERun cmd 120])
  end.
Proof.
  unfold dfx_call, result_text. cbv zeta.
  destruct (subprocess_run _ 120) as [rc out err|e]; [|reflexivity].
  destruct (rc =? 0); reflexivity.
Qed.

Lemma get_addresses_eq :
  get_addresses =
  let cmd := dfx_cmd "getAllAddresses" "()" false in
  match subprocess_run cmd 120 with
  | Completed rc out err =>
      (Ret (result_text rc out err),
       [EPrint ("Fetching addresses on all chains..." ++ nl);
        ERun cmd 120;
        EPrint ("Your multi-chain wallet addresses:" ++ nl);
        EPrint (result_text rc out err)])
  | Failed e =>
      (Raise e,
       [EPrint ("Fetching addresses on all chains..." ++ nl); ERun cmd 120])
  end.
Proof.
  unfold get_addresses. rewrite dfx_call_eq.
  unfold default_args, default_is_query. cbv zeta.
  destruct (subprocess_run _ 120); reflexivity.
Qed.

Lemma get_account_eq :
  get_account =
  let cmd := dfx_cmd "getMyGatewayAccount" "()" false in
  match subprocess_run cmd 120 with
  | Completed rc out err =>
      (Ret tt,
       [ERun cmd 120;
        EPrint ("Billing account status:" ++ nl);
        EPrint (result_text rc out err)])
  | Failed e => (Raise e, [ERun cmd 120])
  end.
Proof.
  unfold get_account. rewrite dfx_call_eq.
  unfold default_args, default_is_query. cbv zeta.
  destruct (subprocess_run _ 120); reflexivity.
Qed.

Lemma get_balance_supported (chain method args symbol : string) :
  In (PyStr.lower chain, (method, args, symbol)) balance_table ->
  get_balance chain =
  let cmd := dfx_cmd method args false in
  match subprocess_run cmd 120 with
  | Completed rc out err =>
      (Ret tt,
       [ERun cmd 120;
        EPrint (symbol ++ " balance: " ++ result_text rc out err)])
  | Failed e => (Raise e, [ERun cmd 120])
  end.
Proof.
  intros H. unfold get_balance. cbv zeta.
  simpl in H.
  repeat (destruct H as [H|H];
          [ injection H as <- <- <- <-; simpl;
            rewrite dfx_call_eq; cbv zeta;
            destruct (subprocess_run _ 120); reflexivity | ]).
  contradiction.
Qed.

Lemma get_balance_unsupported (chain : string) :
  ~ In (PyStr.lower chain) balance_chains ->
  get_balance chain = unsupported_balance (PyStr.lower chain).
Proof.
  intros H. unfold get_balance. cbv zeta.
  assert (E : dict_get method_map (PyStr.lower chain) = None).
  { generalize dependent (PyStr.lower chain). intros c H.
    unfold method_map, dict_get.
    repeat match goal with
           | |- context [String.eqb c ?s] =>
               case_name c s; [exfalso; apply H; simpl; tauto|]
           end.
    reflexivity. }
  rewrite E. reflexivity.
Qed.

Lemma balance_table_chains (c : string) :
  In c balance_chains <->
  exists method args symbol, In (c, (method, args, symbol)) balance_table.
Proof.
  split.
  - intros H. simpl in H.
    repeat (destruct H as [<-|H];
            [ do 3 eexists; simpl; eauto 10 | ]).
    contradiction.
  - intros (m & a & s & H). simpl in H.
    repeat (destruct H as [H|H]; [ injection H as <- _ _ _; simpl; tauto | ]).
    contradiction.
Qed.

Lemma send_table_chains (c : string) :
  In c send_chains <->
  exists method mkargs, In (c, (method, mkargs)) send_table.
Proof.
  split.
  - intros H. simpl in H.
    repeat (destruct H as [<-|H]; [ do 2 eexists; simpl; eauto 15 | ]).
    contradiction.
  - intros (m & a & H). simpl in H.
    repeat (destruct H as [H|H]; [ injection H as <- _ _; simpl; tauto | ]).
    contradiction.
Qed.

Lemma unit_exponent_chains (c : string) :
  In c send_chains <-> exists k, unit_exponent c = Some k.
Proof.
  split.
  - intros H. simpl in H.
    repeat (destruct H as [<-|H]; [ eexists; reflexivity | ]).
    contradiction.
  - intros [k H]. unfold unit_exponent in H.
    repeat match type of H with
           | (if PyStr.mem c ?l then _ else _) = _ =>
               let E := fresh "E" in
               destruct (PyStr.mem c l) eqn:E;
               [ apply mem_In in E; simpl in E; simpl; tauto | ]
           end.
    case_name c "xrp"; [simpl; tauto | discriminate].
Qed.

Lemma send_tokens_supported
  (chain amount to_address method : string) (mkargs : string -> Z -> string)
  (k : Z) (f : spec_float) (n : Z) :
  In (PyStr.lower chain, (method, mkargs)) send_table ->
  unit_exponent (PyStr.lower chain) = Some k ->
  PyFloat.of_string amount = Some f ->
  PyFloat.to_int (PyFloat.mul f (PyFloat.literal_1e k)) = PyFloat.IntOk n ->
  exists line,
    send_tokens chain amount to_address =
    let cmd := dfx_cmd method (mkargs to_address n) false in
    match subprocess_run cmd 120 with
    | Completed rc out err =>
        (Ret tt,
         [EPrint line; ERun cmd 120;
          EPrint ((nl ++ "Result: ") ++ result_text rc out err)])
    | Failed e => (Raise e, [EPrint line; ERun cmd 120])
    end.
Proof.
  intros H Hk Hf Hn. unfold send_tokens, py_float. cbv zeta.
  rewrite Hf. simpl in H.
  repeat (destruct H as [H|H];
          [ injection H as Hc <- <-; rewrite <- Hc in *;
            injection Hk as <-; simpl;
            unfold py_int; rewrite Hn; simpl;
            rewrite dfx_call_eq; cbv zeta; eexists;
            destruct (subprocess_run _ 120); reflexivity | ]).
  contradiction.
Qed.

Lemma send_tokens_bad_amount (chain amount to_address : string) :
  In (PyStr.lower chain) send_chains ->
  PyFloat.of_string amount = None ->
  send_tokens chain amount to_address = (Raise ValueError, []).
Proof.
  intros H Hf. unfold send_tokens, py_float. cbv zeta.
  rewrite Hf. simpl in H.
  repeat (destruct H as [H|H]; [ rewrite <- H; reflexivity | ]).
  contradiction.
Qed.

Lemma send_tokens_no_integer
  (chain amount to_address : string) (k : Z) (f : spec_float) :
  unit_exponent (PyStr.lower chain) = Some k ->
  PyFloat.of_string amount = Some f ->
  send_tokens chain amount to_address =
  match PyFloat.to_int (PyFloat.mul f (PyFloat.literal_1e k)) with
  | PyFloat.IntOk _ => send_tokens chain amount to_address
  | PyFloat.IntOverflow => (Raise OverflowError, [])
  | PyFloat.IntNaN => (Raise ValueError, [])
  end.
Proof.
  intros Hk Hf.
  destruct (PyFloat.to_int _) as [n| |] eqn:Hn; [reflexivity| |];
    assert (H : In (PyStr.lower chain) send_chains)
      by (apply unit_exponent_chains; eauto);
    unfold send_tokens, py_float; cbv zeta; rewrite Hf; simpl in H;
    repeat (destruct H as [H|H];
            [ rewrite <- H in *; injection Hk as <-; simpl;
              unfold py_int; rewrite Hn; reflexivity | ]);
    contradiction.
Qed.

Lemma send_tokens_unsupported (chain amount to_address : string) :
  ~ In (PyStr.lower chain) send_chains ->
  send_tokens chain amount to_address = unsupported_send (PyStr.lower chain).
Proof.
  intros H. unfold send_tokens. cbv zeta.
  generalize dependent (PyStr.lower chain). intros c H.
  unfold PyStr.mem, existsb.
  repeat match goal with
         | |- context [String.eqb c ?s] =>
             case_name c s; [exfalso; apply H; simpl; tauto|]
         end.
  reflexivity.
Qed.

(** *** Every call is accounted for *)

Lemma bind_ret_l {A B} (a : A) (k : A -> M B) : bind (ret a) k = k a.
Proof. unfold bind, ret. destruct (k a). reflexivity. Qed.

Lemma call_outcome_no_run {A} (m : M A) :
  runs (snd m) = [] -> call_outcome m.
Proof.
  intros H cmd t Hin. exfalso.
  induction (snd m) as [|[s|c t'] r IH]; simpl in *.
  - exact Hin.
  - destruct Hin as [Hin|Hin]; [discriminate | auto].
  - discriminate.
Qed.

(** A call between two rounds of printing, the last of which ends with the
    invocation result. *)
Lemma call_outcome_around {A}
  (before : list string) (cmd : list string)
  (after : list string) (pre : string) (a : A) :
  call_outcome
    (match subprocess_run cmd 120 with
     | Completed rc out err =>
         (Ret a,
          (map EPrint before ++ ERun cmd 120 :: map EPrint after
             ++ [EPrint (pre ++ result_text rc out err)])%list)
     | Failed e => (Raise e, (map EPrint before ++ [ERun cmd 120])%list)
     end).
Proof.
  intros c t Hin.
  assert (Hc : c = cmd /\ t = 120).
  { destruct (subprocess_run cmd 120); simpl in Hin;
      repeat (rewrite in_app_iff in Hin; simpl in Hin);
      rewrite ?in_map_iff in Hin;
      repeat match goal with
             | H : _ \/ _ |- _ => destruct H
             | H : exists _, _ |- _ => destruct H as [? [? ?]]
             | H : EPrint _ = ERun _ _ |- _ => discriminate H
             | H : ERun _ _ = ERun _ _ |- _ => injection H as <- <-
             | H : False |- _ => contradiction
             end; auto. }
  destruct Hc as [-> ->]. split; [reflexivity|].
  destruct (subprocess_run cmd 120) as [rc out err|e]; simpl.
  - split; [eauto|]. exists pre.
    rewrite in_app_iff. right. simpl. rewrite in_app_iff. right. simpl. auto.
  - split; [reflexivity|]. eauto.
Qed.

Lemma get_addresses_outcome : call_outcome (get_addresses ;; ret tt).
Proof.
  rewrite get_addresses_eq. cbv zeta.
  pose proof (call_outcome_around
                ["Fetching addresses on all chains..." ++ nl]
                (dfx_cmd "getAllAddresses" "()" false)
                ["Your multi-chain wallet addresses:" ++ nl]
                EmptyString tt) as H.
  destruct (subprocess_run _ 120); exact H.
Qed.

Lemma get_account_outcome : call_outcome get_account.
Proof.
  rewrite get_account_eq. cbv zeta.
  pose proof (call_outcome_around []
                (dfx_cmd "getMyGatewayAccount" "()" false)
                ["Billing account status:" ++ nl]
                EmptyString tt) as H.
  destruct (subprocess_run _ 120); exact H.
Qed.

Lemma get_balance_outcome (chain : string) : call_outcome (get_balance chain).
Proof.
  destruct (in_dec string_dec (PyStr.lower chain) balance_chains) as [H|H].
  - apply balance_table_chains in H. destruct H as (m & a & s & H).
    rewrite (get_balance_supported _ _ _ _ H). cbv zeta.
    pose proof (call_outcome_around [] (dfx_cmd m a false) []
                  (s ++ " balance: ") tt) as Ho.
    simpl in H.
    repeat (destruct H as [H|H];
            [ injection H as _ <- <- <-;
              destruct (subprocess_run _ 120); exact Ho | ]).
    contradiction.
  - rewrite (get_balance_unsupported _ H).
    apply call_outcome_no_run. reflexivity.
Qed.

Lemma send_tokens_outcome (chain amount to_address : string) :
  call_outcome (send_tokens chain amount to_address).
Proof.
  destruct (in_dec string_dec (PyStr.lower chain) send_chains) as [H|H].
  - destruct (PyFloat.of_string amount) as [f|] eqn:Hf.
    + pose proof H as H'. apply unit_exponent_chains in H'.
      destruct H' as [k Hk].
      rewrite (send_tokens_no_integer _ _ to_address _ _ Hk Hf).
      destruct (PyFloat.to_int _) as [n| |] eqn:Hn;
        [| apply call_outcome_no_run; reflexivity
         | apply call_outcome_no_run; reflexivity ].
      apply send_table_chains in H. destruct H as (m & mk & H).
      destruct (send_tokens_supported _ _ to_address _ _ _ _ _ H Hk Hf Hn)
        as [line ->].
      cbv zeta.
      pose proof (call_outcome_around [line]
                    (dfx_cmd m (mk to_address n) false) []
                    (nl ++ "Result: ") tt) as Ho.
      destruct (subprocess_run _ 120); exact Ho.
    + rewrite (send_tokens_bad_amount _ _ _ H Hf).
      apply call_outcome_no_run. reflexivity.
  - rewrite (send_tokens_unsupported _ _ _ H).
    apply call_outcome_no_run. reflexivity.
Qed.

(** [main] either stops on a usage error, having run nothing, or is one of
    the four operations. *)
Lemma main_dispatch (argv : list string) :
  (fst (main argv) = Exit 1 /\ runs (snd (main argv)) = [])
  \/ main argv = (get_addresses ;; ret tt)
  \/ main argv = get_balance (arg argv 2)
  \/ main argv = send_tokens (arg argv 2) (arg argv 3) (arg argv 4)
  \/ main argv = get_account.
Proof.
  unfold main.
  destruct (List.length argv <? 2)%nat; [left; split; reflexivity|].
  rewrite bind_ret_l.
  destruct (String.eqb _ "addresses"); [auto|].
  destruct (String.eqb _ "balance").
  { destruct (List.length argv <? 3)%nat; [left; split; reflexivity|].
    rewrite bind_ret_l. auto. }
  destruct (String.eqb _ "send").
  { destruct (List.length argv <? 5)%nat; [left; split; reflexivity|].
    rewrite bind_ret_l. auto 6. }
  destruct (String.eqb _ "account"); [auto 6|].
  left; split; reflexivity.
Qed.

Lemma main_outcome (argv : list string) : call_outcome (main argv).
Proof.
  destruct (main_dispatch argv) as [[_ H]|[->|[->|[->| ->]]]].
  - apply call_outcome_no_run, H.
  - apply get_addresses_outcome.
  - apply get_balance_outcome.
  - apply send_tokens_outcome.
  - apply get_account_outcome.
Qed.

Lemma main_balance (argv : list string) :
  PyStr.lower (arg argv 1) = "balance" -> (3 <= List.length argv)%nat ->
  main argv = get_balance (arg argv 2).
Proof.
  intros Hc Hl. unfold main.
  destruct (List.length argv <? 2)%nat eqn:E2;
    [apply Nat.ltb_lt in E2; lia|].
  destruct (List.length argv <? 3)%nat eqn:E3;
    [apply Nat.ltb_lt in E3; lia|].
  rewrite Hc. simpl. now destruct (get_balance _).
Qed.

Lemma main_send (argv : list string) :
  PyStr.lower (arg argv 1) = "send" -> (5 <= List.length argv)%nat ->
  main argv = send_tokens (arg argv 2) (arg argv 3) (arg argv 4).
Proof.
  intros Hc Hl. unfold main.
  destruct (List.length argv <? 2)%nat eqn:E2;
    [apply Nat.ltb_lt in E2; lia|].
  destruct (List.length argv <? 5)%nat eqn:E5;
    [apply Nat.ltb_lt in E5; lia|].
  rewrite Hc. simpl. now destruct (send_tokens _ _ _).
Qed.

Lemma unit_exponent_values (c : string) (k : Z) :
  unit_exponent c = Some k -> k = 9 \/ k = 8 \/ k = 18 \/ k = 6.
Proof.
  unfold unit_exponent.
  repeat match goal with
         | |- (if ?b then _ else _) = _ -> _ => destruct b
         end; intros H; inversion H; auto.
Qed.

(** The literals [1e6], [1e8], [1e9] and [1e18] are exactly the powers of
    ten they denote. *)
Lemma unit_factor_exact (c : string) (k : Z) :
  unit_exponent c = Some k ->
  PyFloat.to_int (PyFloat.literal_1e k) = PyFloat.IntOk (10 ^ k).
Proof.
  intros H. apply unit_exponent_values in H.
  destruct H as [->|[->|[->| ->]]]; vm_compute; reflexivity.
Qed.

Lemma not_query_cmd (method args : string) :
  method <> "--query" -> args <> "--query" ->
  ~ In "--query" (dfx_cmd method args false).
Proof.
  intros Hm Ha. unfold dfx_cmd. simpl.
  intros [H|[H|[H|[H|[H|[H|[H|[H|[]]]]]]]]];
    try discriminate; congruence.
Qed.

(** *** The claims of the specification *)

(** C1 (amended).  For every supported chain, [get_balance] calls the tool
    exactly once, through [dfx_call] with [is_query] left at its default
    [False]: the command line is
    [dfx canister call --network ic <canister> <method> <args>] and carries
    no [--query] flag.  If the tool completes, the script prints the
    symbol, [" balance: "] and the invocation result; [balance sol] asks for
    method [getMySolanaBalance] with the empty tuple [()] and prints under
    the symbol [SOL]. *)
Theorem get_balance_invocation (chain : string) :
  In (PyStr.lower chain) balance_chains ->
  exists method args symbol,
    In (PyStr.lower chain, (method, args, symbol)) balance_table /\
    (PyStr.lower chain = "sol" ->
     method = "getMySolanaBalance" /\ args = "()" /\ symbol = "SOL") /\
    dfx_cmd method args false =
      ["dfx"; "canister"; "call"; "--network"; "ic";
       "urs2a-ziaaa-aaaad-aembq-cai"; method; args] /\
    ~ In "--query" (dfx_cmd method args false) /\
    get_balance chain =
      match subprocess_run (dfx_cmd method args false) 120 with
      | Completed rc out err =>
          (Ret tt,
           [ERun (dfx_cmd method args false) 120;
            EPrint (symbol ++ " balance: " ++ result_text rc out err)])
      | Failed e => (Raise e, [ERun (dfx_cmd method args false) 120])
      end.
Proof.
  intros H. apply balance_table_chains in H.
  destruct H as (m & a & s & H). exists m, a, s.
  split; [exact H|].
  split.
  { intros E. rewrite E in H. simpl in H.
    repeat (destruct H as [H|H];
            [ first [ discriminate H | injection H as <- <- <-; auto ] | ]).
    contradiction. }
  split; [reflexivity|].
  split; [| exact (get_balance_supported _ _ _ _ H)].
  simpl in H.
  repeat (destruct H as [H|H];
          [ injection H as _ <- <- _; apply not_query_cmd; discriminate | ]).
  contradiction.
Qed.

(** C2 (amended).  [get_addresses] prints a progress line, calls method
    [getAllAddresses] with the empty tuple [()] through [dfx_call] with
    [is_query] left at [False] (no [--query] flag), then prints a heading
    and the returned text as it is.  [get_account] calls method
    [getMyGatewayAccount] the same way and prints a heading and the
    result. *)
Theorem addresses_and_account_invocation :
  (get_addresses =
   let cmd := dfx_cmd "getAllAddresses" "()" false in
   match subprocess_run cmd 120 with
   | Completed rc out err =>
       (Ret (result_text rc out err),
        [EPrint ("Fetching addresses on all chains..." ++ nl);
         ERun cmd 120;
         EPrint ("Your multi-chain wallet addresses:" ++ nl);
         EPrint (result_text rc out err)])
   | Failed e =>
       (Raise e,
        [EPrint ("Fetching addresses on all chains..." ++ nl); ERun cmd 120])
   end) /\
  (get_account =
   let cmd := dfx_cmd "getMyGatewayAccount" "()" false in
   match subprocess_run cmd 120 with
   | Completed rc out err =>
       (Ret tt,
        [ERun cmd 120;
         EPrint ("Billing account status:" ++ nl);
         EPrint (result_text rc out err)])
   | Failed e => (Raise e, [ERun cmd 120])
   end) /\
  ~ In "--query" (dfx_cmd "getAllAddresses" "()" false) /\
  ~ In "--query" (dfx_cmd "getMyGatewayAccount" "()" false).
Proof.
  split; [exact get_addresses_eq|].
  split; [exact get_account_eq|].
  split; apply not_query_cmd; discriminate.
Qed.

Lemma append_assoc (a b c : string) : (a ++ b) ++ c = a ++ b ++ c.
Proof.
  induction a as [|x a IH]; simpl; [reflexivity | now rewrite IH].
Qed.

Lemma occurs_in_plain (a : string) (n : Z) :
  occurs_in (PyStr.of_int n) (plain_args a n).
Proof.
  exists ("(" ++ quoted a ++ ", "), ")". unfold plain_args.
  now rewrite !append_assoc.
Qed.

Lemma occurs_in_principal (a : string) (n : Z) :
  occurs_in (PyStr.of_int n) (principal_args a n).
Proof.
  exists ("(principal " ++ quoted a ++ ", "), ")". unfold principal_args.
  now rewrite !append_assoc.
Qed.

Lemma occurs_in_evm (net a : string) (n : Z) :
  occurs_in (PyStr.of_int n) (evm_args net a n).
Proof.
  exists ("(" ++ quoted net ++ ", " ++ quoted a ++ ", " ++ dquote),
         (dquote ++ ", null)").
  unfold evm_args, quoted. now rewrite !append_assoc.
Qed.

Lemma occurs_in_xrp (a : string) (n : Z) :
  occurs_in (PyStr.of_int n) (xrp_args a n).
Proof.
  exists ("(" ++ quoted a ++ ", " ++ dquote), (dquote ++ ", null)").
  unfold xrp_args, quoted. now rewrite !append_assoc.
Qed.

Lemma send_table_embeds
  (c method : string) (mkargs : string -> Z -> string) (a : string) (n : Z) :
  In (c, (method, mkargs)) send_table ->
  occurs_in (PyStr.of_int n) (mkargs a n).
Proof.
  intros H. simpl in H.
  repeat (destruct H as [H|H];
          [ injection H as _ _ <-;
            first [ apply occurs_in_plain | apply occurs_in_principal
                  | apply occurs_in_evm | apply occurs_in_xrp ] | ]).
  contradiction.
Qed.

Lemma send_tokens_runs
  (chain amount to_address method : string) (mkargs : string -> Z -> string)
  (k : Z) (f : spec_float) (n : Z) :
  In (PyStr.lower chain, (method, mkargs)) send_table ->
  unit_exponent (PyStr.lower chain) = Some k ->
  PyFloat.of_string amount = Some f ->
  PyFloat.to_int (PyFloat.mul f (PyFloat.literal_1e k)) = PyFloat.IntOk n ->
  runs (snd (send_tokens chain amount to_address)) =
  [dfx_cmd method (mkargs to_address n) false].
Proof.
  intros H Hk Hf Hn.
  destruct (send_tokens_supported _ _ to_address _ _ _ _ _ H Hk Hf Hn)
    as [line ->].
  cbv zeta. destruct (subprocess_run _ 120); reflexivity.
Qed.

(** C3 (amended).  For every supported chain and every amount string that
    [float()] converts to a number whose product with the chain's unit
    factor is finite, [send_tokens] multiplies the float by the factor (sol,
    sui, ton: 10^9; icp, btc: 10^8; eth, arb: 10^18; xrp: 10^6), truncates
    the product to an integer [n] and makes exactly one call, whose
    argument tuple contains the decimal digits of [n].  Amount ["0.01"] on
    ["sol"] gives 10000000; [send icp 1.5 aaaaa-aa] gives 150000000 and
    calls [sendICP] with [(principal "aaaaa-aa", 150000000)]. *)
Theorem send_amount_conversion :
  (forall (chain amount to_address : string) (k : Z) (f : spec_float) (n : Z),
      unit_exponent (PyStr.lower chain) = Some k ->
      PyFloat.of_string amount = Some f ->
      PyFloat.to_int (PyFloat.mul f (PyFloat.literal_1e k)) = PyFloat.IntOk n ->
      PyFloat.to_int (PyFloat.literal_1e k) = PyFloat.IntOk (10 ^ k) /\
      exists method mkargs,
        In (PyStr.lower chain, (method, mkargs)) send_table /\
        occurs_in (PyStr.of_int n) (mkargs to_address n) /\
        runs (snd (send_tokens chain amount to_address)) =
        [dfx_cmd method (mkargs to_address n) false]) /\
  (forall to_address : string,
      runs (snd (send_tokens "sol" "0.01" to_address)) =
      [dfx_cmd "sendSolTransaction"
         ("(" ++ quoted to_address ++ ", 10000000)") false]) /\
  runs (snd (send_tokens "icp" "1.5" "aaaaa-aa")) =
  [dfx_cmd "sendICP" ("(principal " ++ quoted "aaaaa-aa" ++ ", 150000000)")
     false].
Proof.
  split; [|split].
  - intros chain amount to_address k f n Hk Hf Hn.
    split; [exact (unit_factor_exact _ _ Hk)|].
    assert (H : In (PyStr.lower chain) send_chains)
      by (apply unit_exponent_chains; eauto).
    apply send_table_chains in H. destruct H as (m & mk & H).
    exists m, mk. split; [exact H|].
    split; [exact (send_table_embeds _ _ _ _ _ H)|].
    exact (send_tokens_runs _ _ _ _ _ _ _ _ H Hk Hf Hn).
  - intros to_address.
    apply (send_tokens_runs "sol" "0.01" to_address "sendSolTransaction"
             plain_args 9 (S754_finite false 5764607523034235 (-59)) 10000000);
      [simpl; tauto | reflexivity | vm_compute; reflexivity
      | vm_compute; reflexivity].
  - apply (send_tokens_runs "icp" "1.5" "aaaaa-aa" "sendICP"
             principal_args 8 (S754_finite false 6755399441055744 (-52))
             150000000);
      [simpl; tauto | reflexivity | vm_compute; reflexivity
      | vm_compute; reflexivity].
Qed.

(** C4.  For a chain name that, lower-cased, is outside the supported set,
    [get_balance] and [send_tokens] each print the unsupported-chain message
    and the list of supported names, return normally and run no
    subprocess. *)
Theorem unsupported_chain_paths (chain amount to_address : string) :
  (~ In (PyStr.lower chain) balance_chains ->
   get_balance chain = unsupported_balance (PyStr.lower chain) /\
   fst (get_balance chain) = Ret tt /\
   runs (snd (get_balance chain)) = []) /\
  (~ In (PyStr.lower chain) send_chains ->
   send_tokens chain amount to_address = unsupported_send (PyStr.lower chain) /\
   fst (send_tokens chain amount to_address) = Ret tt /\
   runs (snd (send_tokens chain amount to_address)) = []).
Proof.
  split; intros H.
  - rewrite (get_balance_unsupported _ H). repeat split.
  - rewrite (send_tokens_unsupported _ _ _ H). repeat split.
Qed.

(** C5.  [dfx_call] returns the tool's standard output, stripped, when the
    tool exits with code 0, and ["ERROR: "] followed by the stripped
    standard error when it exits with another code.  In the latter case the
    script still ends normally, with exit status 0, and a line it printed
    ends with that error text. *)
Theorem dfx_call_result :
  (forall (method args : string) (is_query : bool) (out err : string),
      subprocess_run (dfx_cmd method args is_query) 120 = Completed 0 out err ->
      fst (dfx_call method args is_query) = Ret (PyStr.strip out)) /\
  (forall (method args : string) (is_query : bool) (rc : Z) (out err : string),
      rc <> 0 ->
      subprocess_run (dfx_cmd method args is_query) 120 = Completed rc out err ->
      fst (dfx_call method args is_query) = Ret ("ERROR: " ++ PyStr.strip err)) /\
  (forall (argv cmd : list string) (t rc : Z) (out err : string),
      In (ERun cmd t) (snd (main argv)) ->
      subprocess_run cmd t = Completed rc out err ->
      rc <> 0 ->
      exit_status (fst (main argv)) = 0 /\
      exists pre,
        In (EPrint (pre ++ "ERROR: " ++ PyStr.strip err)) (snd (main argv))).
Proof.
  split; [|split].
  - intros method args q out err E. rewrite dfx_call_eq. cbv zeta.
    rewrite E. reflexivity.
  - intros method args q rc out err Hrc E. rewrite dfx_call_eq. cbv zeta.
    rewrite E. unfold result_text.
    apply Z.eqb_neq in Hrc. rewrite Hrc. reflexivity.
  - intros argv cmd t rc out err Hin E Hrc.
    destruct (main_outcome argv cmd t Hin) as [_ H].
    rewrite E in H. destruct H as [[a Ha] [pre Hp]].
    split; [rewrite Ha; reflexivity|].
    exists pre. unfold result_text in Hp.
    apply Z.eqb_neq in Hrc. rewrite Hrc in Hp. exact Hp.
Qed.

(** C6.  With no argument at all the script prints the full usage text and
    exits with status 1; [balance] without a chain, and [send] with fewer
    than the three arguments chain, amount and address, print their usage
    line and exit with status 1. *)
Theorem usage_errors (argv : list string) :
  ((List.length argv < 2)%nat ->
   main argv = (Exit 1, [EPrint usage_text]) /\
   exit_status (fst (main argv)) = 1) /\
  (PyStr.lower (arg argv 1) = "balance" -> List.length argv = 2%nat ->
   main argv = (Exit 1, [EPrint "Usage: wallet_commands.py balance <chain>"]) /\
   exit_status (fst (main argv)) = 1) /\
  (PyStr.lower (arg argv 1) = "send" ->
   (2 <= List.length argv < 5)%nat ->
   main argv =
     (Exit 1,
      [EPrint "Usage: wallet_commands.py send <chain> <amount> <address>"]) /\
   exit_status (fst (main argv)) = 1).
Proof.
  split; [|split].
  - intros H. unfold main. apply Nat.ltb_lt in H. rewrite H.
    split; reflexivity.
  - intros Hc Hl. unfold main. rewrite Hc, Hl. split; reflexivity.
  - intros Hc [Hl Hu]. unfold main. rewrite Hc.
    destruct (List.length argv <? 2)%nat eqn:E2;
      [apply Nat.ltb_lt in E2; lia|].
    apply Nat.ltb_lt in Hu. rewrite Hu. split; reflexivity.
Qed.

Lemma get_balance_runs (chain : string) :
  runs (snd (get_balance chain)) <> [] <-> In (PyStr.lower chain) balance_chains.
Proof.
  split.
  - intros H.
    destruct (in_dec string_dec (PyStr.lower chain) balance_chains) as [I|I];
      [exact I|].
    rewrite (get_balance_unsupported _ I) in H. now contradiction H.
  - intros H. apply balance_table_chains in H.
    destruct H as (m & a & s & H).
    rewrite (get_balance_supported _ _ _ _ H). cbv zeta.
    destruct (subprocess_run _ 120); discriminate.
Qed.

Lemma send_tokens_runs_iff (chain to_address : string) :
  (exists amount, runs (snd (send_tokens chain amount to_address)) <> [])
  <-> In (PyStr.lower chain) send_chains.
Proof.
  split.
  - intros [amount H].
    destruct (in_dec string_dec (PyStr.lower chain) send_chains) as [I|I];
      [exact I|].
    rewrite (send_tokens_unsupported _ _ _ I) in H. now contradiction H.
  - intros H. exists "1".
    pose proof H as H'. apply unit_exponent_chains in H'.
    destruct H' as [k Hk].
    apply send_table_chains in H. destruct H as (m & mk & H).
    assert (Hn : exists n,
               PyFloat.to_int
                 (PyFloat.mul (S754_finite false 4503599627370496 (-52))
                    (PyFloat.literal_1e k)) = PyFloat.IntOk n).
    { destruct (unit_exponent_values _ _ Hk) as [->|[->|[->| ->]]];
        eexists; vm_compute; reflexivity. }
    destruct Hn as [n Hn].
    rewrite (send_tokens_runs chain "1" to_address m mk k _ n H Hk
               (eq_refl : PyFloat.of_string "1" = Some _) Hn).
    discriminate.
Qed.

(** C7.  [get_balance] runs the tool exactly for the chain names whose
    lower-case form is one of sol, solana, icp, xrp, sui, eth, ethereum;
    [send_tokens] can run it exactly for those whose lower-case form is one
    of sol, solana, icp, btc, bitcoin, eth, ethereum, arb, arbitrum, xrp,
    sui, ton.  Every other name takes the unsupported-chain path. *)
Theorem supported_chain_sets :
  (forall chain : string,
      runs (snd (get_balance chain)) <> []
      <-> In (PyStr.lower chain) balance_chains) /\
  (forall chain : string,
      ~ In (PyStr.lower chain) balance_chains ->
      get_balance chain = unsupported_balance (PyStr.lower chain)) /\
  (forall chain to_address : string,
      (exists amount, runs (snd (send_tokens chain amount to_address)) <> [])
      <-> In (PyStr.lower chain) send_chains) /\
  (forall chain amount to_address : string,
      ~ In (PyStr.lower chain) send_chains ->
      send_tokens chain amount to_address =
      unsupported_send (PyStr.lower chain)).
Proof.
  split; [exact get_balance_runs|].
  split; [exact get_balance_unsupported|].
  split; [exact send_tokens_runs_iff|].
  exact send_tokens_unsupported.
Qed.

(** C8.  [dfx_call] hands the command to [subprocess.run] with a timeout of
    120 seconds.  When that call ends in [TimeoutExpired], [dfx_call] ends
    with the same exception, and so does the script: nothing catches it,
    the process ends abnormally, and the call is the last event of the run,
    so no result is printed. *)
Theorem timeout_propagates :
  (forall (method args : string) (is_query : bool),
      snd (dfx_call method args is_query) =
      [ERun (dfx_cmd method args is_query) 120]) /\
  (forall (method args : string) (is_query : bool),
      subprocess_run (dfx_cmd method args is_query) 120 = Failed TimeoutExpired ->
      dfx_call method args is_query =
      (Raise TimeoutExpired, [ERun (dfx_cmd method args is_query) 120])) /\
  (forall (argv cmd : list string) (t : Z),
      In (ERun cmd t) (snd (main argv)) ->
      subprocess_run cmd t = Failed TimeoutExpired ->
      t = 120 /\
      fst (main argv) = Raise TimeoutExpired /\
      abnormal (fst (main argv)) /\
      exists before, snd (main argv) = (before ++ [ERun cmd t])%list).
Proof.
  split; [|split].
  - intros method args q. rewrite dfx_call_eq. cbv zeta.
    destruct (subprocess_run _ 120); reflexivity.
  - intros method args q E. rewrite dfx_call_eq. cbv zeta.
    rewrite E. reflexivity.
  - intros argv cmd t Hin E.
    destruct (main_outcome argv cmd t Hin) as [Ht H].
    rewrite E in H. destruct H as [Ho Hl].
    split; [exact Ht|]. split; [exact Ho|].
    split; [rewrite Ho; exact I | exact Hl].
Qed.

(** C9.  The chain name is looked up without regard to case:
    [get_balance] and [send_tokens] do on a chain name exactly what they do
    on its lower-case form. *)
Theorem chain_lookup_ignores_case (chain amount to_address : string) :
  get_balance chain = get_balance (PyStr.lower chain) /\
  send_tokens chain amount to_address =
  send_tokens (PyStr.lower chain) amount to_address.
Proof.
  unfold get_balance, send_tokens. cbv zeta.
  rewrite !lower_idem. split; reflexivity.
Qed.

(** C10.  On a supported send chain, an amount that [float()] cannot parse
    makes [send_tokens] end with [ValueError] before anything is printed or
    any call is made; run as [send <chain> <amount> <address>], the script
    ends abnormally with that exception and never runs the tool. *)
Theorem unparsable_amount_raises (argv : list string) :
  PyStr.lower (arg argv 1) = "send" -> (5 <= List.length argv)%nat ->
  In (PyStr.lower (arg argv 2)) send_chains ->
  PyFloat.of_string (arg argv 3) = None ->
  send_tokens (arg argv 2) (arg argv 3) (arg argv 4) = (Raise ValueError, []) /\
  main argv = (Raise ValueError, []) /\
  abnormal (fst (main argv)) /\
  runs (snd (main argv)) = [].
Proof.
  intros Hc Hl Hin Hf.
  rewrite (main_send _ Hc Hl), (send_tokens_bad_amount _ _ _ Hin Hf).
  repeat split.
Qed.

(** *** Further properties of the script *)

Lemma runs_app (a b : trace) : runs (a ++ b)%list = (runs a ++ runs b)%list.
Proof.
  induction a as [|[x|c t] a IH]; simpl; [reflexivity | exact IH |].
  now rewrite IH.
Qed.

Lemma runs_prints (l : list string) : runs (map EPrint l) = [].
Proof. induction l; simpl; auto. Qed.

Lemma not_run_in_prints (l : list string) (cmd : list string) (t : Z) :
  ~ In (ERun cmd t) (map EPrint l).
Proof.
  intros H. apply in_map_iff in H. destruct H as [x [H _]]. discriminate H.
Qed.

Lemma run_in_around
  (before : list string) (cmd0 cmd : list string) (t0 t : Z) (tail : trace) :
  (forall c u, In (ERun c u) tail -> False) ->
  In (ERun cmd t) (map EPrint before ++ ERun cmd0 t0 :: tail)%list ->
  cmd = cmd0 /\ t = t0.
Proof.
  intros Ht H. apply in_app_or in H. destruct H as [H|[H|H]].
  - now apply not_run_in_prints in H.
  - injection H as <- <-. auto.
  - now apply Ht in H.
Qed.

Lemma get_balance_shape (argv : list string) (chain : string) :
  run_shape argv (get_balance chain).
Proof.
  destruct (in_dec string_dec (PyStr.lower chain) balance_chains) as [H|H].
  - apply balance_table_chains in H. destruct H as (m & a & s & H).
    rewrite (get_balance_supported _ _ _ _ H). cbv zeta.
    do 3 right. exists [], m, a, [], (s ++ " balance: ").
    simpl in H.
    repeat (destruct H as [H|H];
            [ injection H as _ <- <- <-;
              split; [simpl; tauto|];
              destruct (subprocess_run _ 120); reflexivity | ]).
    contradiction.
  - rewrite (get_balance_unsupported _ H).
    right. left. do 2 eexists. reflexivity.
Qed.

Lemma send_table_methods
  (c method : string) (mkargs : string -> Z -> string) :
  In (c, (method, mkargs)) send_table -> In method tool_methods.
Proof.
  intros H. simpl in H.
  repeat (destruct H as [H|H]; [ injection H as _ <- _; simpl; tauto | ]).
  contradiction.
Qed.

Lemma send_tokens_shape (argv : list string) :
  PyStr.lower (arg argv 1) = "send" ->
  run_shape argv (send_tokens (arg argv 2) (arg argv 3) (arg argv 4)).
Proof.
  intros Hc.
  destruct (in_dec string_dec (PyStr.lower (arg argv 2)) send_chains) as [H|H].
  - destruct (PyFloat.of_string (arg argv 3)) as [f|] eqn:Hf.
    + pose proof H as H'. apply unit_exponent_chains in H'.
      destruct H' as [k Hk].
      destruct (PyFloat.to_int (PyFloat.mul f (PyFloat.literal_1e k)))
        as [n| |] eqn:Hn.
      * apply send_table_chains in H. destruct H as (m & mk & H).
        destruct (send_tokens_supported _ _ (arg argv 4) _ _ _ _ _ H Hk Hf Hn)
          as [line ->].
        cbv zeta. do 3 right.
        exists [line], m, (mk (arg argv 4) n), [], (nl ++ "Result: ").
        split; [exact (send_table_methods _ _ _ H)|].
        destruct (subprocess_run _ 120); reflexivity.
      * rewrite (send_tokens_no_integer _ _ (arg argv 4) _ _ Hk Hf), Hn.
        do 2 right. left. exists OverflowError.
        split; [reflexivity|]. split; [exact Hc|].
        right. exists f, k. auto.
      * rewrite (send_tokens_no_integer _ _ (arg argv 4) _ _ Hk Hf), Hn.
        do 2 right. left. exists ValueError.
        split; [reflexivity|]. split; [exact Hc|].
        right. exists f, k. auto.
    + rewrite (send_tokens_bad_amount _ _ _ H Hf).
      do 2 right. left. exists ValueError.
      split; [reflexivity|]. split; [exact Hc|]. left. auto.
  - rewrite (send_tokens_unsupported _ _ _ H).
    right. left. do 2 eexists. reflexivity.
Qed.

Lemma main_shape (argv : list string) : run_shape argv (main argv).
Proof.
  unfold main.
  destruct (List.length argv <? 2)%nat.
  { left. exists [], usage_text. split; [reflexivity | auto]. }
  rewrite bind_ret_l.
  destruct (String.eqb _ "addresses").
  { do 3 right.
    exists ["Fetching addresses on all chains..." ++ nl], "getAllAddresses",
           "()", ["Your multi-chain wallet addresses:" ++ nl], EmptyString.
    split; [simpl; tauto|].
    rewrite get_addresses_eq. cbv zeta.
    destruct (subprocess_run _ 120); reflexivity. }
  destruct (String.eqb _ "balance").
  { destruct (List.length argv <? 3)%nat.
    - left. exists [], "Usage: wallet_commands.py balance <chain>".
      split; [reflexivity | right; simpl; tauto].
    - rewrite bind_ret_l. apply get_balance_shape. }
  destruct (String.eqb _ "send") eqn:Es.
  { destruct (List.length argv <? 5)%nat.
    - left.
      exists [], "Usage: wallet_commands.py send <chain> <amount> <address>".
      split; [reflexivity | right; simpl; tauto].
    - rewrite bind_ret_l. apply send_tokens_shape.
      now apply String.eqb_eq in Es. }
  destruct (String.eqb _ "account").
  { do 3 right.
    exists [], "getMyGatewayAccount", "()", ["Billing account status:" ++ nl],
           EmptyString.
    split; [simpl; tauto|].
    rewrite get_account_eq. cbv zeta.
    destruct (subprocess_run _ 120); reflexivity. }
  left. exists ["Unknown command: " ++ PyStr.lower (arg argv 1)], usage_text.
  split; [reflexivity | auto].
Qed.

Lemma runs_around
  (before after : list string) (cmd : list string) (t : Z) (last : string) :
  runs (map EPrint before ++ ERun cmd t :: map EPrint after ++ [EPrint last])%list
  = [cmd] /\
  runs (map EPrint before ++ [ERun cmd t])%list = [cmd].
Proof.
  rewrite !runs_app, !runs_prints. simpl.
  now rewrite runs_app, runs_prints.
Qed.

(** X1.  A command other than [addresses], [balance], [send] and
    [account] is answered with ["Unknown command: "] and the command in
    lower case, then the usage text, and [sys.exit(1)]; nothing is run. *)
Theorem unknown_command_exits (argv : list string) :
  (2 <= List.length argv)%nat ->
  ~ In (PyStr.lower (arg argv 1)) commands ->
  main argv =
  (Exit 1,
   [EPrint ("Unknown command: " ++ PyStr.lower (arg argv 1));
    EPrint usage_text]).
Proof.
  intros Hl Hc. unfold main.
  destruct (List.length argv <? 2)%nat eqn:E2;
    [apply Nat.ltb_lt in E2; lia|].
  rewrite bind_ret_l.
  repeat match goal with
         | |- context [String.eqb (PyStr.lower (arg argv 1)) ?s] =>
             let E := fresh "E" in
             destruct (String.eqb (PyStr.lower (arg argv 1)) s) eqn:E;
             [ apply String.eqb_eq in E; exfalso; apply Hc; rewrite E;
               simpl; tauto | ]
         end.
  reflexivity.
Qed.

(** X2.  The command word is read without regard to case. *)
Theorem main_command_ignores_case (prog command : string) (rest : list string) :
  main (prog :: command :: rest) = main (prog :: PyStr.lower command :: rest).
Proof.
  unfold main, arg. simpl nth. simpl List.length.
  rewrite lower_idem. reflexivity.
Qed.

(** X3.  Whatever the arguments and whatever the tool does, one run of the
    script calls [subprocess.run] at most once. *)
Theorem main_runs_at_most_once (argv : list string) :
  (List.length (runs (snd (main argv))) <= 1)%nat.
Proof.
  destruct (main_shape argv)
    as [(b & x & E & _)|[(l1 & l2 & E)|[(e & E & _)
       |(b & m & a & af & pre & _ & E)]]]; rewrite E.
  - simpl. rewrite runs_app, runs_prints. simpl. lia.
  - simpl. lia.
  - simpl. lia.
  - destruct (subprocess_run _ 120) as [rc out err|e]; simpl snd.
    + rewrite (proj1 (runs_around b af _ 120 _)). simpl. lia.
    + rewrite (proj2 (runs_around b af _ 120 EmptyString)). simpl. lia.
Qed.

(** X4.  When the script ends through [sys.exit], the status is 1, the tool
    was not run, and the last thing printed is the usage text or one of the
    two usage lines. *)
Theorem main_exit_is_usage_error (argv : list string) (code : Z) :
  fst (main argv) = Exit code ->
  code = 1 /\
  runs (snd (main argv)) = [] /\
  exists before text,
    snd (main argv) = (before ++ [EPrint text])%list /\
    (text = usage_text \/ In text usage_lines).
Proof.
  intros H.
  destruct (main_shape argv)
    as [(b & x & E & Hx)|[(l1 & l2 & E)|[(e & E & _)
       |(b & m & a & af & pre & _ & E)]]]; rewrite E in *.
  - simpl in H. injection H as <-. split; [reflexivity|]. split.
    + simpl. now rewrite runs_app, runs_prints.
    + exists (map EPrint b), x. auto.
  - discriminate H.
  - discriminate H.
  - destruct (subprocess_run _ 120); discriminate H.
Qed.

(** X5.  Every command line the script hands to [subprocess.run] has the
    same eight elements: [dfx canister call --network ic], the canister
    identifier, one of the fourteen methods the script names, and one
    argument tuple.  What the user typed can only reach the last element. *)
Theorem main_command_lines (argv cmd : list string) :
  In cmd (runs (snd (main argv))) ->
  exists method args,
    In method tool_methods /\
    cmd = ["dfx"; "canister"; "call"; "--network"; "ic";
           "urs2a-ziaaa-aaaad-aembq-cai"; method; args].
Proof.
  intros H.
  destruct (main_shape argv)
    as [(b & x & E & _)|[(l1 & l2 & E)|[(e & E & _)
       |(b & m & a & af & pre & Hm & E)]]]; rewrite E in H.
  - simpl in H. rewrite runs_app, runs_prints in H. contradiction H.
  - contradiction H.
  - contradiction H.
  - exists m, a. split; [exact Hm|].
    destruct (subprocess_run _ 120) as [rc out err|e]; simpl snd in H.
    + rewrite (proj1 (runs_around b af _ 120 _)) in H.
      destruct H as [<-|[]]. reflexivity.
    + rewrite (proj2 (runs_around b af _ 120 EmptyString)) in H.
      destruct H as [<-|[]]. reflexivity.
Qed.

(** X6.  The long chain names are interchangeable with the short ones:
    [send_tokens] does on solana, bitcoin, ethereum and arbitrum exactly
    what it does on sol, btc, eth and arb, and [get_balance] does on solana
    and ethereum exactly what it does on sol and eth. *)
Theorem chain_aliases_interchangeable
  (chain alias short amount to_address : string) :
  In (alias, short) chain_aliases ->
  PyStr.lower chain = alias ->
  send_tokens chain amount to_address = send_tokens short amount to_address /\
  (In alias balance_chains -> get_balance chain = get_balance short).
Proof.
  intros H Hl. simpl in H.
  destruct H as [H|[H|[H|[H|[]]]]]; injection H as <- <-;
    (split;
     [ unfold send_tokens; cbv zeta; rewrite Hl; reflexivity
     | intros Hb; simpl in Hb;
       first [ unfold get_balance; cbv zeta; rewrite Hl; reflexivity
             | exfalso;
               repeat (destruct Hb as [Hb|Hb]; [discriminate Hb|]);
               exact Hb ] ]).
Qed.

Lemma balance_chains_send (c : string) :
  In c balance_chains -> In c send_chains.
Proof.
  intros H. simpl in H.
  repeat (destruct H as [<-|H]; [simpl; tauto|]). contradiction.
Qed.

Lemma send_only_chains_iff (c : string) :
  In c send_only_chains <-> In c send_chains /\ ~ In c balance_chains.
Proof.
  split.
  - intros H. simpl in H.
    repeat (destruct H as [<-|H];
            [ split; [simpl; tauto|];
              let B := fresh "B" in
              intros B; simpl in B;
              repeat (destruct B as [B|B]; [discriminate B|]); exact B | ]).
    contradiction.
  - intros [H B]. simpl in H.
    repeat (destruct H as [<-|H];
            [ first [ simpl; tauto | exfalso; apply B; simpl; tauto ] | ]).
    contradiction.
Qed.

(** X7.  Whatever chain [get_balance] runs the tool for, [send_tokens]
    can run it for too; the chains that can be sent on but whose balance
    cannot be asked for are exactly btc, bitcoin, arb, arbitrum and ton. *)
Theorem send_only_chains_spec (chain : string) :
  (runs (snd (get_balance chain)) <> [] ->
   forall to_address,
   exists amount, runs (snd (send_tokens chain amount to_address)) <> []) /\
  (In (PyStr.lower chain) send_only_chains <->
   runs (snd (get_balance chain)) = [] /\
   exists amount to_address,
     runs (snd (send_tokens chain amount to_address)) <> []).
Proof.
  split.
  - intros H to_address. apply send_tokens_runs_iff.
    apply balance_chains_send. now apply get_balance_runs.
  - rewrite send_only_chains_iff. split.
    + intros [Hs Hb]. split.
      * now rewrite (get_balance_unsupported _ Hb).
      * destruct (proj2 (send_tokens_runs_iff chain "x") Hs) as [amount Ha].
        now exists amount, "x".
    + intros [Hb (amount & to_address & Ha)]. split.
      * apply (send_tokens_runs_iff chain to_address). now exists amount.
      * intros I. apply get_balance_runs in I. now apply I.
Qed.

(** X8.  The script reads the command and only the arguments the command
    needs (one for [balance], three for [send]): what follows them on the
    command line is ignored, and so is the program name [sys.argv[0]]. *)
Theorem main_ignores_surplus_arguments
  (argv extra : list string) (prog : string) :
  (required_length (PyStr.lower (arg argv 1)) <= List.length argv)%nat ->
  main (argv ++ extra)%list = main argv /\
  main (prog :: tl argv) = main argv.
Proof.
  intros H.
  assert (H2 : (2 <= List.length argv)%nat).
  { unfold required_length in H.
    destruct (String.eqb _ "balance"); [lia|].
    destruct (String.eqb _ "send"); lia. }
  split.
  - assert (Hn : forall i, (i < List.length argv)%nat ->
                           arg (argv ++ extra)%list i = arg argv i)
      by (intros i Hi; unfold arg; now apply app_nth1).
    unfold main. rewrite length_app, (Hn 1%nat) by lia.
    destruct (List.length argv <? 2)%nat eqn:E2;
      [apply Nat.ltb_lt in E2; lia|].
    destruct (List.length argv + List.length extra <? 2)%nat eqn:E2';
      [apply Nat.ltb_lt in E2'; lia|].
    unfold required_length in H.
    destruct (String.eqb _ "addresses"); [reflexivity|].
    destruct (String.eqb _ "balance").
    { destruct (List.length argv <? 3)%nat eqn:E3;
        [apply Nat.ltb_lt in E3; lia|].
      destruct (List.length argv + List.length extra <? 3)%nat eqn:E3';
        [apply Nat.ltb_lt in E3'; lia|].
      rewrite (Hn 2%nat) by lia. reflexivity. }
    destruct (String.eqb _ "send").
    { destruct (List.length argv <? 5)%nat eqn:E5;
        [apply Nat.ltb_lt in E5; lia|].
      destruct (List.length argv + List.length extra <? 5)%nat eqn:E5';
        [apply Nat.ltb_lt in E5'; lia|].
      rewrite (Hn 2%nat), (Hn 3%nat), (Hn 4%nat) by lia. reflexivity. }
    reflexivity.
  - destruct argv as [|a rest]; [simpl in H2; lia|]. reflexivity.
Qed.

(** X9.  Whenever the tool completes, with whatever exit code, the script
    returns normally and the last thing it does is print a line that ends
    with the invocation result. *)
Theorem main_prints_result_last
  (argv cmd : list string) (t rc : Z) (out err : string) :
  In (ERun cmd t) (snd (main argv)) ->
  subprocess_run cmd t = Completed rc out err ->
  fst (main argv) = Ret tt /\
  exists before pre,
    snd (main argv) = (before ++ [EPrint (pre ++ result_text rc out err)])%list.
Proof.
  intros Hin Hr.
  destruct (main_shape argv)
    as [(b & x & E & _)|[(l1 & l2 & E)|[(e & E & _)
       |(b & m & a & af & pre & _ & E)]]]; rewrite E in *.
  - exfalso. simpl in Hin. apply in_app_or in Hin.
    destruct Hin as [Hin|[Hin|[]]];
      [now apply not_run_in_prints in Hin | discriminate Hin].
  - exfalso. destruct Hin as [Hin|[Hin|[]]]; discriminate Hin.
  - contradiction Hin.
  - destruct (subprocess_run (dfx_cmd m a false) 120) as [rc0 out0 err0|e0] eqn:E0;
      simpl snd in Hin.
    + apply run_in_around in Hin.
      * destruct Hin as [-> ->]. rewrite Hr in E0. injection E0 as <- <- <-.
        split; [reflexivity|].
        exists (map EPrint b ++ ERun (dfx_cmd m a false) 120 :: map EPrint af)%list,
               pre.
        simpl snd. rewrite <- app_assoc. reflexivity.
      * intros c u Hc. apply in_app_or in Hc.
        destruct Hc as [Hc|[Hc|[]]];
          [now apply not_run_in_prints in Hc | discriminate Hc].
    + apply (run_in_around b _ _ _ _ []) in Hin; [|intros c u []].
      destruct Hin as [-> ->]. rewrite Hr in E0. discriminate E0.
Qed.

(** X10.  The script ends with an exception in two ways only: the one call
    of [subprocess.run] raised it (and that call is then the last event), or
    the command is [send] and the amount did not convert, in which case
    nothing was printed or run. *)
Theorem main_raise_sources (argv : list string) (e : exn) :
  fst (main argv) = Raise e ->
  (exists cmd before,
      snd (main argv) = (before ++ [ERun cmd 120])%list /\
      subprocess_run cmd 120 = Failed e)
  \/ (snd (main argv) = [] /\
      PyStr.lower (arg argv 1) = "send" /\
      amount_error (arg argv 2) (arg argv 3) e).
Proof.
  intros H.
  destruct (main_shape argv)
    as [(b & x & E & _)|[(l1 & l2 & E)|[(e' & E & Hc & Ha)
       |(b & m & a & af & pre & _ & E)]]]; rewrite E in *.
  - discriminate H.
  - discriminate H.
  - injection H as ->. right. auto.
  - destruct (subprocess_run (dfx_cmd m a false) 120) as [rc out err|e0] eqn:E0;
      [discriminate H|].
    injection H as ->. left.
    exists (dfx_cmd m a false), (map EPrint b). auto.
Qed.

Lemma lstrip_split (s : string) :
  exists l, s = l ++ PyStr.lstrip_by PyStr.is_space s /\ all_space l = true.
Proof.
  induction s as [|c r [l [IH Hl]]]; simpl.
  - exists EmptyString. auto.
  - destruct (PyStr.is_space c) eqn:E.
    + exists (String c l). simpl. rewrite E, Hl. split; [congruence | reflexivity].
    + exists EmptyString. auto.
Qed.

Lemma lstrip_first (s : string) :
  match first_char (PyStr.lstrip_by PyStr.is_space s) with
  | Some c => PyStr.is_space c = false
  | None => True
  end.
Proof.
  induction s as [|c r IH]; simpl; [exact I|].
  destruct (PyStr.is_space c) eqn:E; [exact IH | exact E].
Qed.

Lemma rstrip_split (s : string) :
  exists t, s = PyStr.rstrip_by PyStr.is_space s ++ t /\ all_space t = true.
Proof.
  induction s as [|c r [t [IH Ht]]]; simpl.
  - exists EmptyString. auto.
  - destruct (PyStr.rstrip_by PyStr.is_space r) as [|d r'] eqn:Er.
    + simpl in IH. subst t.
      destruct (PyStr.is_space c) eqn:E.
      * exists (String c r). simpl. rewrite E, Ht. auto.
      * exists r. auto.
    + exists t. simpl in IH |- *. split; [now f_equal | exact Ht].
Qed.

Lemma rstrip_first (s : string) :
  first_char (PyStr.rstrip_by PyStr.is_space s) = None \/
  first_char (PyStr.rstrip_by PyStr.is_space s) = first_char s.
Proof.
  destruct s as [|c r]; simpl; [auto|].
  destruct (PyStr.rstrip_by PyStr.is_space r); [|auto].
  destruct (PyStr.is_space c); auto.
Qed.

Lemma rstrip_last (s : string) :
  match last_char (PyStr.rstrip_by PyStr.is_space s) with
  | Some c => PyStr.is_space c = false
  | None => True
  end.
Proof.
  induction s as [|c r IH]; simpl; [exact I|].
  destruct (PyStr.rstrip_by PyStr.is_space r) as [|d r'] eqn:Er.
  - destruct (PyStr.is_space c) eqn:E; simpl; [exact I | exact E].
  - exact IH.
Qed.

Lemma strip_spec (s : string) :
  exists l t,
    s = l ++ PyStr.strip s ++ t /\
    all_space l = true /\ all_space t = true /\
    edge_space (PyStr.strip s) = false.
Proof.
  unfold PyStr.strip, PyStr.strip_by.
  destruct (lstrip_split s) as [l [Hs Hl]].
  destruct (rstrip_split (PyStr.lstrip_by PyStr.is_space s)) as [t [Hm Ht]].
  exists l, t. split; [congruence|]. split; [exact Hl|]. split; [exact Ht|].
  unfold edge_space.
  pose proof (rstrip_last (PyStr.lstrip_by PyStr.is_space s)) as Hlast.
  pose proof (lstrip_first s) as Hfirst.
  destruct (rstrip_first (PyStr.lstrip_by PyStr.is_space s)) as [Hf|Hf];
    rewrite Hf.
  - simpl. destruct (last_char _); [now rewrite Hlast | reflexivity].
  - destruct (first_char (PyStr.lstrip_by PyStr.is_space s)).
    + rewrite Hfirst. simpl.
      destruct (last_char _); [now rewrite Hlast | reflexivity].
    + simpl. destruct (last_char _); [now rewrite Hlast | reflexivity].
Qed.

(** X11.  On exit code 0, what [dfx_call] returns is the tool's standard
    output less the white space at its two ends, and nothing else: the
    output is some white space, the returned text, and some white space,
    and the returned text neither begins nor ends with a white-space
    character. *)
Theorem dfx_call_trims
  (method args : string) (is_query : bool) (out err : string) :
  subprocess_run (dfx_cmd method args is_query) 120 = Completed 0 out err ->
  exists r l t,
    fst (dfx_call method args is_query) = Ret r /\
    out = l ++ r ++ t /\
    all_space l = true /\ all_space t = true /\
    edge_space r = false.
Proof.
  intros E. rewrite dfx_call_eq. cbv zeta. rewrite E.
  destruct (strip_spec out) as (l & t & H).
  exists (PyStr.strip out), l, t. split; [reflexivity | exact H].
Qed.

Lemma mul_infinity_unit (s : bool) (c : string) (k : Z) :
  unit_exponent c = Some k ->
  PyFloat.mul (S754_infinity s) (PyFloat.literal_1e k) = S754_infinity s.
Proof.
  intros H. apply unit_exponent_values in H.
  destruct H as [->|[->|[->| ->]]]; destruct s; vm_compute; reflexivity.
Qed.

(** X12.  On a supported send chain, an amount that [float()] reads as
    [nan] ends [send_tokens] with [ValueError], and one it reads as an
    infinity, or whose product with the unit factor overflows, with
    [OverflowError]; in each case nothing is printed and the tool is not
    run. *)
Theorem send_amount_not_integral
  (chain amount to_address : string) (k : Z) (f : spec_float) :
  unit_exponent (PyStr.lower chain) = Some k ->
  PyFloat.of_string amount = Some f ->
  (f = S754_nan ->
   send_tokens chain amount to_address = (Raise ValueError, [])) /\
  (forall s, f = S754_infinity s ->
   send_tokens chain amount to_address = (Raise OverflowError, [])) /\
  (PyFloat.to_int (PyFloat.mul f (PyFloat.literal_1e k)) = PyFloat.IntOverflow ->
   send_tokens chain amount to_address = (Raise OverflowError, [])).
Proof.
  intros Hk Hf.
  pose proof (send_tokens_no_integer chain amount to_address k f Hk Hf) as H.
  split; [|split].
  - intros ->. rewrite H. reflexivity.
  - intros s ->. rewrite H, (mul_infinity_unit _ _ _ Hk). reflexivity.
  - intros Ho. rewrite H, Ho. reflexivity.
Qed.

End Script.

(** ** The theorems at work on concrete runs *)

Lemma get_balance_invocation_witness :
  In (PyStr.lower "SOL") balance_chains /\
  exists method args symbol,
    In (PyStr.lower "SOL", (method, args, symbol)) balance_table /\
    (PyStr.lower "SOL" = "sol" ->
     method = "getMySolanaBalance" /\ args = "()" /\ symbol = "SOL") /\
    dfx_cmd method args false =
      ["dfx"; "canister"; "call"; "--network"; "ic";
       "urs2a-ziaaa-aaaad-aembq-cai"; method; args] /\
    ~ In "--query" (dfx_cmd method args false) /\
    get_balance (dfx_answers "(25_000_000 : nat64)") "SOL" =
      match dfx_answers "(25_000_000 : nat64)" (dfx_cmd method args false) 120 with
      | Completed rc out err =>
          (Ret tt,
           [ERun (dfx_cmd method args false) 120;
            EPrint (symbol ++ " balance: " ++ result_text rc out err)])
      | Failed e => (Raise e, [ERun (dfx_cmd method args false) 120])
      end.
Proof.
  split.
  - simpl. tauto.
  - apply (get_balance_invocation (dfx_answers "(25_000_000 : nat64)") "SOL").
    simpl. tauto.
Defined.

(** C1 as stated fails: [balance sol] runs [dfx] without [--query]. *)
Lemma balance_sol_runs_without_query :
  runs (snd (get_balance (dfx_answers "(25_000_000 : nat64)") "sol")) =
    [["dfx"; "canister"; "call"; "--network"; "ic";
      "urs2a-ziaaa-aaaad-aembq-cai"; "getMySolanaBalance"; "()"]] /\
  ~ (exists cmd,
        In cmd (runs (snd (get_balance (dfx_answers "(25_000_000 : nat64)")
                             "sol"))) /\
        In "--query" cmd).
Proof.
  split; [reflexivity|].
  intros [cmd [[<-|[]] H]]. simpl in H.
  repeat (destruct H as [H|H]; [discriminate H|]). exact H.
Qed.

(** C2 as stated fails: [addresses] and [account] run [dfx] without
    [--query]. *)
Lemma addresses_and_account_run_without_query :
  runs (snd (get_addresses (dfx_answers "(record {})"))) =
    [["dfx"; "canister"; "call"; "--network"; "ic";
      "urs2a-ziaaa-aaaad-aembq-cai"; "getAllAddresses"; "()"]] /\
  runs (snd (get_account (dfx_answers "(record {})"))) =
    [["dfx"; "canister"; "call"; "--network"; "ic";
      "urs2a-ziaaa-aaaad-aembq-cai"; "getMyGatewayAccount"; "()"]] /\
  ~ (exists cmd,
        (In cmd (runs (snd (get_addresses (dfx_answers "(record {})")))) \/
         In cmd (runs (snd (get_account (dfx_answers "(record {})"))))) /\
        In "--query" cmd).
Proof.
  split; [reflexivity|]. split; [reflexivity|].
  intros [cmd [[[<-|[]]|[<-|[]]] H]]; simpl in H;
    repeat (destruct H as [H|H]; [discriminate H|]); exact H.
Qed.

(** C3 as stated fails: ["inf"] converts to a float, yet no integer comes
    out of it and no call is made. *)
Lemma send_infinite_amount_raises :
  PyFloat.of_string "inf" = Some (S754_infinity false) /\
  send_tokens (dfx_answers "(variant { ok })") "sol" "inf" "5xK2abc" =
  (Raise OverflowError, []).
Proof.
  split; vm_compute; reflexivity.
Qed.

Lemma send_amount_conversion_witness :
  (unit_exponent (PyStr.lower "ICP") = Some 8 /\
   PyFloat.of_string "1.5" = Some (S754_finite false 6755399441055744 (-52)) /\
   PyFloat.to_int
     (PyFloat.mul (S754_finite false 6755399441055744 (-52))
        (PyFloat.literal_1e 8)) = PyFloat.IntOk 150000000) /\
  (PyFloat.to_int (PyFloat.literal_1e 8) = PyFloat.IntOk (10 ^ 8) /\
   exists method mkargs,
     In (PyStr.lower "ICP", (method, mkargs)) send_table /\
     occurs_in (PyStr.of_int 150000000) (mkargs "aaaaa-aa" 150000000) /\
     runs (snd (send_tokens (dfx_answers "(variant { ok })")
                  "ICP" "1.5" "aaaaa-aa")) =
     [dfx_cmd method (mkargs "aaaaa-aa" 150000000) false]).
Proof.
  split.
  - repeat split; vm_compute; reflexivity.
  - apply (proj1 (send_amount_conversion (dfx_answers "(variant { ok })"))
             "ICP" "1.5" "aaaaa-aa" 8
             (S754_finite false 6755399441055744 (-52)) 150000000);
      vm_compute; reflexivity.
Defined.

Lemma unsupported_chain_paths_witness :
  (~ In (PyStr.lower "Doge") balance_chains /\
   ~ In (PyStr.lower "Doge") send_chains) /\
  get_balance (dfx_answers "(0 : nat64)") "Doge" =
    (Ret tt,
     [EPrint "Unsupported chain: doge";
      EPrint "Supported: sol, solana, icp, xrp, sui, eth, ethereum"]) /\
  send_tokens (dfx_answers "(0 : nat64)") "Doge" "1" "D8abc" =
    (Ret tt,
     [EPrint "Unsupported chain for send: doge";
      EPrint "Supported: sol, icp, btc, eth, arb, xrp, sui, ton"]).
Proof.
  assert (Hb : ~ In (PyStr.lower "Doge") balance_chains).
  { simpl. intros H.
    repeat (destruct H as [H|H]; [discriminate H|]). exact H. }
  assert (Hs : ~ In (PyStr.lower "Doge") send_chains).
  { simpl. intros H.
    repeat (destruct H as [H|H]; [discriminate H|]). exact H. }
  split; [split; assumption|].
  destruct (unsupported_chain_paths (dfx_answers "(0 : nat64)")
              "Doge" "1" "D8abc") as [B S].
  split.
  - exact (proj1 (B Hb)).
  - exact (proj1 (S Hs)).
Defined.

Lemma dfx_call_result_witness :
  (In (ERun (dfx_cmd "getMySolanaBalance" "()" false) 120)
      (snd (main (dfx_rejects 255 ("Error: canister trapped" ++ nl))
              ["wallet_commands.py"; "balance"; "sol"])) /\
   dfx_rejects 255 ("Error: canister trapped" ++ nl)
     (dfx_cmd "getMySolanaBalance" "()" false) 120 =
   Completed 255 EmptyString ("Error: canister trapped" ++ nl) /\
   255 <> 0) /\
  exit_status
    (fst (main (dfx_rejects 255 ("Error: canister trapped" ++ nl))
            ["wallet_commands.py"; "balance"; "sol"])) = 0 /\
  exists pre,
    In (EPrint (pre ++ "ERROR: "
                ++ PyStr.strip ("Error: canister trapped" ++ nl)))
       (snd (main (dfx_rejects 255 ("Error: canister trapped" ++ nl))
               ["wallet_commands.py"; "balance"; "sol"])).
Proof.
  assert (Hin : In (ERun (dfx_cmd "getMySolanaBalance" "()" false) 120)
                  (snd (main (dfx_rejects 255 ("Error: canister trapped" ++ nl))
                          ["wallet_commands.py"; "balance"; "sol"]))).
  { vm_compute. left. reflexivity. }
  split.
  - split; [exact Hin|]. split; [reflexivity | discriminate].
  - apply (proj2 (proj2 (dfx_call_result
                           (dfx_rejects 255 ("Error: canister trapped" ++ nl))))
             ["wallet_commands.py"; "balance"; "sol"]
             (dfx_cmd "getMySolanaBalance" "()" false) 120 255 EmptyString
             ("Error: canister trapped" ++ nl));
      [exact Hin | reflexivity | discriminate].
Defined.

Lemma usage_errors_witness :
  main (dfx_answers "(0 : nat64)") ["wallet_commands.py"] =
    (Exit 1, [EPrint usage_text]) /\
  main (dfx_answers "(0 : nat64)") ["wallet_commands.py"; "balance"] =
    (Exit 1, [EPrint "Usage: wallet_commands.py balance <chain>"]) /\
  main (dfx_answers "(0 : nat64)") ["wallet_commands.py"; "send"; "sol"; "0.01"] =
    (Exit 1,
     [EPrint "Usage: wallet_commands.py send <chain> <amount> <address>"]).
Proof.
  split; [|split].
  - apply (proj1 (usage_errors (dfx_answers "(0 : nat64)")
                    ["wallet_commands.py"])).
    simpl. lia.
  - apply (proj1 (proj2 (usage_errors (dfx_answers "(0 : nat64)")
                           ["wallet_commands.py"; "balance"])));
      reflexivity.
  - apply (proj2 (proj2 (usage_errors (dfx_answers "(0 : nat64)")
                           ["wallet_commands.py"; "send"; "sol"; "0.01"])));
      [reflexivity | simpl; lia].
Defined.

Lemma supported_chain_sets_witness :
  runs (snd (get_balance (dfx_answers "(0 : nat64)") "Ethereum")) <> [] /\
  get_balance (dfx_answers "(0 : nat64)") "btc" = unsupported_balance "btc" /\
  (exists amount,
      runs (snd (send_tokens (dfx_answers "(0 : nat64)") "BTC" amount "bc1qabc"))
      <> []) /\
  send_tokens (dfx_answers "(0 : nat64)") "doge" "1" "D8abc" =
  unsupported_send "doge".
Proof.
  destruct (supported_chain_sets (dfx_answers "(0 : nat64)"))
    as (B & Bu & S & Su).
  split; [|split; [|split]].
  - apply (proj2 (B "Ethereum")). simpl. tauto.
  - apply (Bu "btc"). simpl. intros H.
    repeat (destruct H as [H|H]; [discriminate H|]). exact H.
  - apply (proj2 (S "BTC" "bc1qabc")). simpl. tauto.
  - apply (Su "doge" "1" "D8abc"). simpl. intros H.
    repeat (destruct H as [H|H]; [discriminate H|]). exact H.
Defined.

Lemma timeout_propagates_witness :
  (In (ERun (dfx_cmd "sendICP" (principal_args "aaaaa-aa" 150000000) false) 120)
      (snd (main dfx_hangs ["wallet_commands.py"; "send"; "icp"; "1.5"; "aaaaa-aa"])) /\
   dfx_hangs (dfx_cmd "sendICP" (principal_args "aaaaa-aa" 150000000) false) 120 =
   Failed TimeoutExpired) /\
  fst (main dfx_hangs ["wallet_commands.py"; "send"; "icp"; "1.5"; "aaaaa-aa"]) =
    Raise TimeoutExpired /\
  exists before,
    snd (main dfx_hangs ["wallet_commands.py"; "send"; "icp"; "1.5"; "aaaaa-aa"]) =
    (before
     ++ [ERun (dfx_cmd "sendICP" (principal_args "aaaaa-aa" 150000000) false)
           120])%list.
Proof.
  assert (Hin : In (ERun (dfx_cmd "sendICP"
                            (principal_args "aaaaa-aa" 150000000) false) 120)
                  (snd (main dfx_hangs
                          ["wallet_commands.py"; "send"; "icp"; "1.5";
                           "aaaaa-aa"]))).
  { vm_compute. right. left. reflexivity. }
  split; [split; [exact Hin | reflexivity]|].
  destruct (proj2 (proj2 (timeout_propagates dfx_hangs))
              ["wallet_commands.py"; "send"; "icp"; "1.5"; "aaaaa-aa"]
              (dfx_cmd "sendICP" (principal_args "aaaaa-aa" 150000000) false)
              120 Hin eq_refl) as (_ & Ho & _ & Hl).
  split; [exact Ho | exact Hl].
Defined.

Lemma unparsable_amount_raises_witness :
  PyFloat.of_string "abc" = None /\
  main (dfx_answers "(variant { ok })")
    ["wallet_commands.py"; "send"; "sol"; "abc"; "5xK2abc"] =
  (Raise ValueError, []).
Proof.
  split; [vm_compute; reflexivity|].
  apply (unparsable_amount_raises (dfx_answers "(variant { ok })")
           ["wallet_commands.py"; "send"; "sol"; "abc"; "5xK2abc"]);
    [reflexivity | simpl; lia | simpl; tauto | vm_compute; reflexivity].
Defined.

(** ** The further properties at work on concrete runs *)

Lemma unknown_command_exits_witness :
  ((2 <= List.length ["wallet_commands.py"; "Transfer"; "sol"])%nat /\
   ~ In (PyStr.lower (arg ["wallet_commands.py"; "Transfer"; "sol"] 1)) commands) /\
  main (dfx_answers "(0 : nat64)") ["wallet_commands.py"; "Transfer"; "sol"] =
  (Exit 1, [EPrint "Unknown command: transfer"; EPrint usage_text]).
Proof.
  assert (Hc : ~ In (PyStr.lower (arg ["wallet_commands.py"; "Transfer"; "sol"] 1))
                 commands).
  { simpl. intros H.
    repeat (destruct H as [H|H]; [discriminate H|]). exact H. }
  split; [split; [simpl; lia | exact Hc]|].
  apply (unknown_command_exits (dfx_answers "(0 : nat64)")
           ["wallet_commands.py"; "Transfer"; "sol"]);
    [simpl; lia | exact Hc].
Defined.

Lemma main_exit_is_usage_error_witness :
  fst (main (dfx_answers "(0 : nat64)") ["wallet_commands.py"; "send"; "sol"]) =
    Exit 1 /\
  runs (snd (main (dfx_answers "(0 : nat64)")
               ["wallet_commands.py"; "send"; "sol"])) = [].
Proof.
  split; [reflexivity|].
  exact (proj1 (proj2 (main_exit_is_usage_error (dfx_answers "(0 : nat64)")
                         ["wallet_commands.py"; "send"; "sol"] 1 eq_refl))).
Defined.

Lemma main_command_lines_witness :
  In (dfx_cmd "getMyEvmBalance" ("(" ++ quoted "ethereum" ++ ")") false)
     (runs (snd (main (dfx_answers "(0 : nat)")
                   ["wallet_commands.py"; "balance"; "eth"]))) /\
  exists method args,
    In method tool_methods /\
    dfx_cmd "getMyEvmBalance" ("(" ++ quoted "ethereum" ++ ")") false =
    ["dfx"; "canister"; "call"; "--network"; "ic";
     "urs2a-ziaaa-aaaad-aembq-cai"; method; args].
Proof.
  assert (Hin : In (dfx_cmd "getMyEvmBalance" ("(" ++ quoted "ethereum" ++ ")")
                      false)
                  (runs (snd (main (dfx_answers "(0 : nat)")
                                ["wallet_commands.py"; "balance"; "eth"])))).
  { vm_compute. left. reflexivity. }
  split; [exact Hin|].
  exact (main_command_lines (dfx_answers "(0 : nat)")
           ["wallet_commands.py"; "balance"; "eth"] _ Hin).
Defined.

Lemma chain_aliases_interchangeable_witness :
  (In ("ethereum", "eth") chain_aliases /\ PyStr.lower "Ethereum" = "ethereum") /\
  send_tokens (dfx_answers "(variant { ok })") "Ethereum" "0.1" "0xabc" =
  send_tokens (dfx_answers "(variant { ok })") "eth" "0.1" "0xabc" /\
  get_balance (dfx_answers "(variant { ok })") "Ethereum" =
  get_balance (dfx_answers "(variant { ok })") "eth".
Proof.
  split; [split; [simpl; tauto | reflexivity]|].
  destruct (chain_aliases_interchangeable (dfx_answers "(variant { ok })")
              "Ethereum" "ethereum" "eth" "0.1" "0xabc")
    as [S B]; [simpl; tauto | reflexivity |].
  split; [exact S | apply B; simpl; tauto].
Defined.

Lemma send_only_chains_spec_witness :
  In (PyStr.lower "TON") send_only_chains /\
  runs (snd (get_balance (dfx_answers "(0 : nat64)") "TON")) = [] /\
  exists amount to_address,
    runs (snd (send_tokens (dfx_answers "(0 : nat64)") "TON" amount to_address))
    <> [].
Proof.
  assert (H : In (PyStr.lower "TON") send_only_chains) by (simpl; tauto).
  split; [exact H|].
  exact (proj1 (proj2 (send_only_chains_spec (dfx_answers "(0 : nat64)") "TON"))
           H).
Defined.

Lemma main_ignores_surplus_arguments_witness :
  (required_length (PyStr.lower (arg ["wallet_commands.py"; "balance"; "sol"] 1))
   <= List.length ["wallet_commands.py"; "balance"; "sol"])%nat /\
  main (dfx_answers "(0 : nat64)")
    ["wallet_commands.py"; "balance"; "sol"; "--verbose"] =
  main (dfx_answers "(0 : nat64)") ["wallet_commands.py"; "balance"; "sol"] /\
  main (dfx_answers "(0 : nat64)") ["./wallet"; "balance"; "sol"] =
  main (dfx_answers "(0 : nat64)") ["wallet_commands.py"; "balance"; "sol"].
Proof.
  split; [vm_compute; lia|].
  apply (main_ignores_surplus_arguments (dfx_answers "(0 : nat64)")
           ["wallet_commands.py"; "balance"; "sol"] ["--verbose"] "./wallet").
  vm_compute. lia.
Defined.

Lemma main_prints_result_last_witness :
  (In (ERun (dfx_cmd "getMyGatewayAccount" "()" false) 120)
      (snd (main (dfx_answers ("(record { credits = 10 })" ++ nl))
              ["wallet_commands.py"; "account"])) /\
   dfx_answers ("(record { credits = 10 })" ++ nl)
     (dfx_cmd "getMyGatewayAccount" "()" false) 120 =
   Completed 0 ("(record { credits = 10 })" ++ nl) EmptyString) /\
  fst (main (dfx_answers ("(record { credits = 10 })" ++ nl))
         ["wallet_commands.py"; "account"]) = Ret tt /\
  exists before pre,
    snd (main (dfx_answers ("(record { credits = 10 })" ++ nl))
           ["wallet_commands.py"; "account"]) =
    (before
     ++ [EPrint (pre ++ result_text 0 ("(record { credits = 10 })" ++ nl)
                          EmptyString)])%list.
Proof.
  assert (Hin : In (ERun (dfx_cmd "getMyGatewayAccount" "()" false) 120)
                  (snd (main (dfx_answers ("(record { credits = 10 })" ++ nl))
                          ["wallet_commands.py"; "account"]))).
  { vm_compute. left. reflexivity. }
  split; [split; [exact Hin | reflexivity]|].
  exact (main_prints_result_last
           (dfx_answers ("(record { credits = 10 })" ++ nl))
           ["wallet_commands.py"; "account"] _ 120 0 _ _ Hin eq_refl).
Defined.

Lemma main_raise_sources_witness :
  fst (main dfx_hangs ["wallet_commands.py"; "addresses"]) =
    Raise TimeoutExpired /\
  ((exists cmd before,
       snd (main dfx_hangs ["wallet_commands.py"; "addresses"]) =
       (before ++ [ERun cmd 120])%list /\
       dfx_hangs cmd 120 = Failed TimeoutExpired)
   \/ (snd (main dfx_hangs ["wallet_commands.py"; "addresses"]) = [] /\
       PyStr.lower (arg ["wallet_commands.py"; "addresses"] 1) = "send" /\
       amount_error (arg ["wallet_commands.py"; "addresses"] 2)
         (arg ["wallet_commands.py"; "addresses"] 3) TimeoutExpired)).
Proof.
  split; [reflexivity|].
  exact (main_raise_sources dfx_hangs ["wallet_commands.py"; "addresses"]
           TimeoutExpired eq_refl).
Defined.

Lemma dfx_call_trims_witness :
  dfx_answers ("  (25_000_000 : nat64) " ++ nl)
    (dfx_cmd "getMySolanaBalance" "()" false) 120 =
  Completed 0 ("  (25_000_000 : nat64) " ++ nl) EmptyString /\
  exists r l t,
    fst (dfx_call (dfx_answers ("  (25_000_000 : nat64) " ++ nl))
           "getMySolanaBalance" "()" false) = Ret r /\
    "  (25_000_000 : nat64) " ++ nl = l ++ r ++ t /\
    all_space l = true /\ all_space t = true /\ edge_space r = false.
Proof.
  split; [reflexivity|].
  exact (dfx_call_trims (dfx_answers ("  (25_000_000 : nat64) " ++ nl))
           "getMySolanaBalance" "()" false _ EmptyString eq_refl).
Defined.

Lemma send_amount_not_integral_witness :
  (unit_exponent (PyStr.lower "sol") = Some 9 /\
   PyFloat.of_string "nan" = Some S754_nan) /\
  send_tokens (dfx_answers "(variant { ok })") "sol" "nan" "5xK2abc" =
  (Raise ValueError, []).
Proof.
  split; [split; vm_compute; reflexivity|].
  apply (proj1 (send_amount_not_integral (dfx_answers "(variant { ok })")
                  "sol" "nan" "5xK2abc" 9 S754_nan eq_refl eq_refl)).
  reflexivity.
Defined.
